(** * Degree estimation for UFL expressions

    A shallow embedding of [ufl/algorithms/estimate_degrees.py] (the two
    degree estimators and their driving functions) and of the math-function
    constructors of [ufl/operators.py], together with the properties the
    specification states about them.

    Python values are modelled as the code has them: a degree is a Python
    integer ([Z]) or, in the max estimator, possibly [None] ([option Z]);
    a raised exception is the [Raise] case of the result type [Exc].  The
    sources are Python 2 (they import [izip]), in which [None] compares
    below every integer. *)

From Stdlib Require Import ZArith List Lia Bool.
From Stdlib Require Import Floats.SpecFloat.
From stdpp Require Import base option list gmap.

Local Open Scope Z_scope.

(** ** Exceptions *)

Inductive PyErr : Type :=
| ValueError
| TypeError
| AttributeError
| OverflowError
| UFLException.

Inductive Exc (A : Type) : Type :=
| Ok (a : A)
| Raise (e : PyErr).

Arguments Ok {A} a.
Arguments Raise {A} e.

Definition bind {A B : Type} (c : Exc A) (k : A -> Exc B) : Exc B :=
  match c with
  | Ok a => k a
  | Raise e => Raise e
  end.

Notation "x <- c ;; k" := (bind c (fun x => k))
  (at level 100, c at next level, right associativity).

(** [map(f, xs)]: left to right, the first exception propagates. *)
Fixpoint map_exc {A B : Type} (f : A -> Exc B) (xs : list A) : Exc (list B) :=
  match xs with
  | [] => Ok []
  | x :: xs' => r <- f x ;; rs <- map_exc f xs' ;; Ok (r :: rs)
  end.

(** ** Python built-ins used by the estimators *)

Module Py.

(** [max(xs)] on a list of integers; the empty list raises. *)
Definition max_int (xs : list Z) : Exc Z :=
  match xs with
  | [] => Raise ValueError
  | x :: xs' => Ok (fold_left Z.max xs' x)
  end.

(** [sum(xs)] on a list of integers. *)
Definition sum (xs : list Z) : Z := fold_left Z.add xs 0.

(** Python 2 ordering of [None] and integers: [None] is below every
    integer. *)
Definition max2 (x y : option Z) : option Z :=
  match x, y with
  | None, _ => y
  | _, None => x
  | Some a, Some b => Some (Z.max a b)
  end.

(** [max(xs)] on a list of integers and [None]s. *)
Definition max (xs : list (option Z)) : Exc (option Z) :=
  match xs with
  | [] => Raise ValueError
  | x :: xs' => Ok (fold_left max2 xs' x)
  end.

(** [x <= y] in that ordering. *)
Definition leb (x y : option Z) : bool :=
  match x, y with
  | None, _ => true
  | Some _, None => false
  | Some a, Some b => Z.leb a b
  end.

(** [[op for op in ops if not op is None]] *)
Fixpoint not_none (ops : list (option Z)) : list Z :=
  match ops with
  | [] => []
  | None :: ops' => not_none ops'
  | Some d :: ops' => d :: not_none ops'
  end.

End Py.

(** ** The node model *)

(** Python numbers held by literal nodes: an integer (an [int], or a
    [long] when it is outside the machine range) or a [float] (an IEEE
    double, as the standard library's [spec_float]). *)
Inductive PyNum : Type :=
| PyInt (z : Z)
| PyFloat (x : spec_float).

(** The classes [Sqrt], [Exp], [Ln], [Cos], [Sin] of [ufl.mathfunctions]. *)
Inductive MathFn : Type := Sqrt | Exp | Ln | Cos | Sin.

#[local] Unset Elimination Schemes.
(** Modelled from the spec: the expression node classes ([ufl.classes],
    not among the sources), by the kinds the two estimators and the
    constructors distinguish.  [Terminal] and [Operator] stand for every
    other terminal and compound class.  A form argument carries what
    [v.element().degree()] returns, an optional non-negative integer. *)
Inductive Expr : Type :=
| Terminal
| ScalarValue (v : PyNum)
| Zero
| SpatialCoordinate
| FormArgument (degree : option N)
| Operator (ops : list Expr)
| SpatialDerivative (f i : Expr)
| Product (ops : list Expr)
| Division (a b : Expr)
| Power (a b : Expr)
| MathFunction (fn : MathFn) (a : Expr)
| BesselFunction (nu x : Expr).
#[local] Set Elimination Schemes.

(** [v.operands()] *)
Definition operands (v : Expr) : list Expr :=
  match v with
  | Terminal | ScalarValue _ | Zero | SpatialCoordinate | FormArgument _ => []
  | Operator ops | Product ops => ops
  | SpatialDerivative a b | Division a b | Power a b | BesselFunction a b => [a; b]
  | MathFunction _ a => [a]
  end.

(** Handler names: a rule set registers a rule under the name of a node
    kind. *)
Module Kind.

Inductive t : Type :=
| terminal
| scalar_value
| zero
| spatial_coordinate
| form_argument
| expr
| spatial_derivative
| product
| division
| power
| math_function
| bessel_function.

End Kind.

Definition kind (v : Expr) : Kind.t :=
  match v with
  | Terminal => Kind.terminal
  | ScalarValue _ => Kind.scalar_value
  | Zero => Kind.zero
  | SpatialCoordinate => Kind.spatial_coordinate
  | FormArgument _ => Kind.form_argument
  | Operator _ => Kind.expr
  | SpatialDerivative _ _ => Kind.spatial_derivative
  | Product _ => Kind.product
  | Division _ _ => Kind.division
  | Power _ _ => Kind.power
  | MathFunction _ _ => Kind.math_function
  | BesselFunction _ _ => Kind.bessel_function
  end.

(** Modelled from the spec: [Integral] ([ufl.integral], not among the
    sources) wraps one integrand; its domain metadata plays no part in
    degree estimation. *)
Record Integral : Type := { integrand : Expr }.

(** Modelled from the spec: [Form] ([ufl.form], not among the sources),
    an ordered collection of integrals. *)
Record Form : Type := { integrals : list Integral }.

(** What the driving functions accept. *)
Inductive Target : Type :=
| OfForm (f : Form)
| OfIntegral (i : Integral)
| OfExpr (e : Expr).

(** ** The traversal engine *)

Module Transformer.

(** A rule: called as [h(o, *ops)] with the node and the results of its
    operands. *)
Definition Rule (R : Type) : Type := Expr -> list R -> Exc R.

(** A rule set: the rules a [Transformer] subclass defines, by name. *)
Definition RuleSet (R : Type) : Type := Kind.t -> option (Rule R).

Section Engine.
Context {R : Type} (rules : RuleSet R).

(** Modelled from the spec: the rule resolution of [Transformer]
    ([ufl.algorithms.transformer], not among the sources): the rule
    registered for the node's exact kind; if absent, the rule for
    [terminal] when the node has no operands; otherwise the universal
    fallback [expr], whose absence is a configuration error. *)
Definition resolve (v : Expr) : Exc (Rule R) :=
  match rules (kind v) with
  | Some h => Ok h
  | None =>
      match (match operands v with [] => rules Kind.terminal | _ => None end) with
      | Some h => Ok h
      | None =>
          match rules Kind.expr with
          | Some h => Ok h
          | None => Raise UFLException
          end
      end
  end.

(** Modelled from the spec: [Transformer.visit]
    ([ufl.algorithms.transformer], not among the sources): post-order
    evaluation, every operand first and in order, then the rule
    selected for the node applied to the node and the operand
    results.  The rules being functions of the node and the operand
    results, the engine's cache bears on how often a rule is invoked, not
    on what is returned; it is modelled in [Traversal] below. *)
Fixpoint visit (v : Expr) : Exc R :=
  ops <- match v with
         | Terminal | ScalarValue _ | Zero | SpatialCoordinate
         | FormArgument _ => Ok []
         | Operator l | Product l =>
             (fix go (l : list Expr) : Exc (list R) :=
                match l with
                | [] => Ok []
                | x :: l' => r <- visit x ;; rs <- go l' ;; Ok (r :: rs)
                end) l
         | SpatialDerivative a b | Division a b | Power a b
         | BesselFunction a b =>
             ra <- visit a ;; rb <- visit b ;; Ok [ra; rb]
         | MathFunction _ a => ra <- visit a ;; Ok [ra]
         end ;;
  h <- resolve v ;;
  h v ops.

End Engine.

End Transformer.

(** ** The sum estimator *)

Module SumDegreeEstimator.

Section Rules.
(** [int(g)] on a raw operand node: the integer it converts to, or the
    exception the conversion raises.  The conversion is a method of the
    node classes, which are not among the sources. *)
Variable py_int : Expr -> Exc Z.
Variable default_degree : Z.

(** Most terminals are spatially constant. *)
Definition terminal (v : Expr) (ops : list Z) : Exc Z :=
  match ops with
  | [] => Ok 0
  | _ => Raise TypeError
  end.

(** A coordinate provides one additional degree. *)
Definition spatial_coordinate (v : Expr) (ops : list Z) : Exc Z :=
  match ops with
  | [] => Ok 1
  | _ => Raise TypeError
  end.

(** The element's degree, or the default degree if it has none. *)
Definition form_argument (v : Expr) (ops : list Z) : Exc Z :=
  match ops with
  | [] =>
      match v with
      | FormArgument d =>
          Ok (match d with
              | None => default_degree
              | Some d => Z.of_N d
              end)
      | _ => Raise AttributeError
      end
  | _ => Raise TypeError
  end.

(** For most operators: the max degree of the operands. *)
Definition expr (v : Expr) (ops : list Z) : Exc Z := Py.max_int ops.

(** A spatial derivative reduces the degree by one. *)
Definition spatial_derivative (v : Expr) (ops : list Z) : Exc Z :=
  match ops with
  | [f; i] => Ok (Z.max (f - 1) 0)
  | _ => Raise TypeError
  end.

Definition product (v : Expr) (ops : list Z) : Exc Z := Ok (Py.sum ops).

Definition division (v : Expr) (ops : list Z) : Exc Z := Ok (Py.sum ops).

(** [f, g = v.operands()]; [a*int(g)] if the conversion succeeds,
    otherwise [a*2]. *)
Definition power (v : Expr) (ops : list Z) : Exc Z :=
  match ops with
  | [a; b] =>
      match operands v with
      | [f; g] =>
          match py_int g with
          | Ok gi => Ok (a * gi)
          | Raise _ => Ok (a * 2)
          end
      | _ => Raise ValueError
      end
  | _ => Raise TypeError
  end.

Definition math_function (v : Expr) (ops : list Z) : Exc Z :=
  match ops with
  | [a] => if Z.eqb a 0 then Ok a else Ok (a + 2)
  | _ => Raise TypeError
  end.

Definition bessel_function (v : Expr) (ops : list Z) : Exc Z :=
  match ops with
  | [nu; x] => if Z.eqb x 0 then Ok x else Ok (x + 2)
  | _ => Raise TypeError
  end.

(** The methods the class defines. *)
Definition rules : Transformer.RuleSet Z :=
  fun k =>
    match k with
    | Kind.terminal => Some terminal
    | Kind.spatial_coordinate => Some spatial_coordinate
    | Kind.form_argument => Some form_argument
    | Kind.expr => Some expr
    | Kind.spatial_derivative => Some spatial_derivative
    | Kind.product => Some product
    | Kind.division => Some division
    | Kind.power => Some power
    | Kind.math_function => Some math_function
    | Kind.bessel_function => Some bessel_function
    | _ => None
    end.

Definition visit : Expr -> Exc Z := Transformer.visit rules.

End Rules.

End SumDegreeEstimator.

(** ** The max estimator *)

Module MaxDegreeEstimator.

Section Rules.
Variable default_degree : Z.

Definition terminal (v : Expr) (ops : list (option Z)) : Exc (option Z) :=
  match ops with
  | [] => Ok (Some 0)
  | _ => Raise TypeError
  end.

Definition expr (v : Expr) (ops : list (option Z)) : Exc (option Z) :=
  Py.max ops.

(** The element's degree as it is, [None] included. *)
Definition form_argument (v : Expr) (ops : list (option Z)) : Exc (option Z) :=
  match ops with
  | [] =>
      match v with
      | FormArgument d => Ok (option_map Z.of_N d)
      | _ => Raise AttributeError
      end
  | _ => Raise TypeError
  end.

(** [max(degrees + [self.default_degree])], the list [nones] being
    built and not used. *)
Definition product (v : Expr) (ops : list (option Z)) : Exc (option Z) :=
  let degrees := Py.not_none ops in
  d <- Py.max_int (degrees ++ [default_degree]) ;;
  Ok (Some d).

(** The methods the class defines; [spatial_derivative] is commented
    out in the source. *)
Definition rules : Transformer.RuleSet (option Z) :=
  fun k =>
    match k with
    | Kind.terminal => Some terminal
    | Kind.expr => Some expr
    | Kind.form_argument => Some form_argument
    | Kind.product => Some product
    | _ => None
    end.

Definition visit : Expr -> Exc (option Z) := Transformer.visit rules.

End Rules.

End MaxDegreeEstimator.

(** ** The driving functions *)

(** Modelled from the spec: [ufl_assert] ([ufl.assertions], not among the
    sources): fails with an error when the condition does not hold. *)
Definition ufl_assert (condition : bool) : Exc unit :=
  if condition then Ok tt else Raise UFLException.

(** Truth value of a Python list: non-empty. *)
Definition truthy {A : Type} (l : list A) : bool :=
  match l with
  | [] => false
  | _ :: _ => true
  end.

Definition estimate_max_polynomial_degree (e : Target) (default_degree : Z)
  : Exc (option Z) :=
  let de := MaxDegreeEstimator.visit default_degree in
  degrees <- match e with
             | OfForm e =>
                 _ <- ufl_assert (truthy (integrals e)) ;;
                 map_exc (fun integral => de (integrand integral)) (integrals e)
             | OfIntegral e => d <- de (integrand e) ;; Ok [d]
             | OfExpr e => d <- de e ;; Ok [d]
             end ;;
  Py.max degrees.

Definition estimate_total_polynomial_degree (py_int : Expr -> Exc Z)
  (e : Target) (default_degree : Z) : Exc Z :=
  let de := SumDegreeEstimator.visit py_int default_degree in
  degrees <- match e with
             | OfForm e =>
                 _ <- ufl_assert (truthy (integrals e)) ;;
                 map_exc (fun integral => de (integrand integral)) (integrals e)
             | OfIntegral e => d <- de (integrand e) ;; Ok [d]
             | OfExpr e => d <- de e ;; Ok [d]
             end ;;
  Py.max_int degrees.

(** ** Python's [math] module *)

Module Math.

(** Python floats are IEEE doubles. *)
Definition prec : Z := 53.
Definition emax : Z := 1024.

Definition is_nan (x : spec_float) : bool :=
  match x with
  | S754_nan => true
  | _ => false
  end.

Definition is_infinity (x : spec_float) : bool :=
  match x with
  | S754_infinity _ => true
  | _ => false
  end.

Definition is_finite (x : spec_float) : bool :=
  match x with
  | S754_zero _ | S754_finite _ _ _ => true
  | _ => false
  end.

(** The argument of a math function as a double: an [int] is rounded to
    the nearest double, and one too large for a double raises. *)
Definition as_double (v : PyNum) : Exc spec_float :=
  match v with
  | PyFloat x => Ok x
  | PyInt z =>
      let x := binary_normalize prec emax z 0 false in
      if is_infinity x then Raise OverflowError else Ok x
  end.

(** [sys.maxint] on a 64-bit platform: an integer outside
    [-maxint - 1 .. maxint] is a [long]. *)
Definition maxint : Z := 2 ^ 63 - 1.

Definition is_long (z : Z) : bool :=
  Z.ltb z (- maxint - 1) || Z.ltb maxint z.

Definition one_half : spec_float := binary_normalize prec emax 1 (-1) false.

Definition two : spec_float := binary_normalize prec emax 2 0 false.

(** A positive [long] as a mantissa in [[0.5, 1)], rounded to a double,
    and a binary exponent; a mantissa that rounds to 1 is taken as 0.5
    with the exponent one higher. *)
Definition long_frexp (z : Z) : spec_float * Z :=
  let bits := Z.log2 z + 1 in
  let x := binary_normalize prec emax z (- bits) false in
  if SFeqb x (SFone prec emax) then (one_half, bits + 1) else (x, bits).

Section Libm.
(** The C library's functions on doubles; its square root is the
    correctly rounded one, [SFsqrt]. *)
Variable libm : MathFn -> spec_float -> spec_float.

(** The wrapper every one-argument function of the module goes
    through: a NaN result from a non-NaN argument is a domain error,
    an infinite result from a finite argument is a range error (or a
    domain error for functions that cannot overflow). *)
Definition math_1 (func : spec_float -> spec_float) (can_overflow : bool)
  (arg : PyNum) : Exc PyNum :=
  x <- as_double arg ;;
  let r := func x in
  if is_nan r && negb (is_nan x) then Raise ValueError
  else if is_infinity r && is_finite x then
         Raise (if can_overflow then OverflowError else ValueError)
  else Ok (PyFloat r).

(** The logarithm the module calls: the C library's on positive finite
    arguments, minus infinity at zero, NaN on negative ones. *)
Definition m_log (x : spec_float) : spec_float :=
  if is_finite x then
    if SFltb (S754_zero false) x then libm Ln x
    else if SFeqb x (S754_zero false) then S754_infinity true
    else S754_nan
  else if is_nan x then x
  else if SFltb (S754_zero false) x then x
  else S754_nan.

Definition sqrt : PyNum -> Exc PyNum := math_1 (SFsqrt prec emax) false.
Definition exp : PyNum -> Exc PyNum := math_1 (libm Exp) true.
(** The logarithm of a [long], which the module takes itself from the
    mantissa and the exponent, [log(x) + log(2) * e]: an integer too
    large for a double has a logarithm, and one that is not positive is a
    domain error. *)
Definition log_long (z : Z) : Exc PyNum :=
  if Z.leb z 0 then Raise ValueError
  else
    let (x, e) := long_frexp z in
    if Z.eqb e 1 && SFeqb x one_half then Ok (PyFloat (S754_zero false))
    else
      Ok (PyFloat
            (SFadd prec emax (m_log x)
               (SFmul prec emax (m_log two)
                  (binary_normalize prec emax e 0 false)))).

Definition log (arg : PyNum) : Exc PyNum :=
  match arg with
  | PyInt z => if is_long z then log_long z else math_1 m_log false arg
  | PyFloat _ => math_1 m_log false arg
  end.
Definition cos : PyNum -> Exc PyNum := math_1 (libm Cos) false.
Definition sin : PyNum -> Exc PyNum := math_1 (libm Sin) false.

End Libm.

End Math.

(** ** The math-function constructors of [ufl/operators.py] *)

(** What a caller passes to a constructor: an expression node or a Python
    number. *)
Inductive PyObj : Type :=
| OfNode (e : Expr)
| OfNum (v : PyNum).

(** A literal scalar value or the zero value. *)
Definition is_literal (e : Expr) : bool :=
  match e with
  | ScalarValue _ | Zero => true
  | _ => false
  end.

Module Operators.

Section Constructors.
(** Modelled from the spec: [as_ufl] ([ufl.scalar], not among the
    sources) on a Python number: the node it is wrapped in, a literal
    or the zero value. *)
Variable as_ufl_value : PyNum -> Expr.

Variable libm : MathFn -> spec_float -> spec_float.

(** [as_ufl]: an expression is returned as it is. *)
Definition as_ufl (f : PyObj) : Expr :=
  match f with
  | OfNode e => e
  | OfNum v => as_ufl_value v
  end.

Definition _mathfunction (f : PyObj) (cls : Expr -> Expr)
  (fun_ : PyNum -> Exc PyNum) : Exc Expr :=
  let f := as_ufl f in
  match f with
  | ScalarValue _value => r <- fun_ _value ;; Ok (as_ufl_value r)
  | Zero => r <- fun_ (PyInt 0) ;; Ok (as_ufl_value r)
  | _ => Ok (cls f)
  end.

Definition sqrt (f : PyObj) : Exc Expr :=
  _mathfunction f (MathFunction Sqrt) Math.sqrt.

Definition exp (f : PyObj) : Exc Expr :=
  _mathfunction f (MathFunction Exp) (Math.exp libm).

Definition ln (f : PyObj) : Exc Expr :=
  _mathfunction f (MathFunction Ln) (Math.log libm).

Definition cos (f : PyObj) : Exc Expr :=
  _mathfunction f (MathFunction Cos) (Math.cos libm).

Definition sin (f : PyObj) : Exc Expr :=
  _mathfunction f (MathFunction Sin) (Math.sin libm).

(** The constructor and the Python function of each class. *)
Definition constructor (fn : MathFn) : PyObj -> Exc Expr :=
  match fn with
  | Sqrt => sqrt
  | Exp => exp
  | Ln => ln
  | Cos => cos
  | Sin => sin
  end.

Definition math_fun (fn : MathFn) : PyNum -> Exc PyNum :=
  match fn with
  | Sqrt => Math.sqrt
  | Exp => Math.exp libm
  | Ln => Math.log libm
  | Cos => Math.cos libm
  | Sin => Math.sin libm
  end.

End Constructors.

End Operators.

(** ** The traversal engine over a shared graph *)

Module Traversal.

(** A node of the shared graph: what it is and the identities of its
    operands, in order. *)
Record Node (L : Type) : Type := { label : L; args : list nat }.

Arguments label {L} _.
Arguments args {L} _.

(** The per-call state: the results computed so far, by node identity,
    and the record of the rule invocations (the identity of the node
    each was made for, the latest first). *)
Record State (R : Type) : Type := { cache : gmap nat R; calls : list nat }.

Arguments cache {R} _.
Arguments calls {R} _.

Definition initial {R : Type} : State R := {| cache := ∅; calls := [] |}.

(** How many times the rule was invoked for node [i]. *)
Fixpoint invocations (i : nat) (log : list nat) : nat :=
  match log with
  | [] => O
  | j :: log' => ((if Nat.eqb i j then 1 else 0) + invocations i log')%nat
  end.

Section Evaluate.
Context {L R : Type}.

(** The graph: the node of every identity.  Nodes are immutable and
    built operands first, so an operand's identity is below its
    parent's. *)
Variable g : list (Node L).

(** The rule set, as the rule it selects for a node. *)
Variable rule : Node L -> list R -> R.

(** Operands first and in order, the state threaded through. *)
Fixpoint visit_all (visit : nat -> State R -> option (R * State R))
  (l : list nat) (st : State R) : option (list R * State R) :=
  match l with
  | [] => Some ([], st)
  | m :: l' =>
      match visit m st with
      | None => None
      | Some (r, st1) =>
          match visit_all visit l' st1 with
          | None => None
          | Some (rs, st2) => Some (r :: rs, st2)
          end
      end
  end.

(** Modelled from the spec: the evaluation of one node by the
    traversal engine ([ufl.algorithms.transformer], not among the
    sources): a cached result is returned as it is; otherwise every
    operand is evaluated first, the rule is invoked on the node and the
    operand results, and the result is stored.  The recursion depth
    is bounded by [fuel]. *)
Fixpoint visit (fuel : nat) (n : nat) (st : State R) : option (R * State R) :=
  match fuel with
  | O => None
  | S fuel' =>
      match cache st !! n with
      | Some r => Some (r, st)
      | None =>
          match g !! n with
          | None => None
          | Some node =>
              match visit_all (visit fuel') (args node) st with
              | None => None
              | Some (rs, st') =>
                  let r := rule node rs in
                  Some (r, {| cache := <[n := r]> (cache st');
                              calls := n :: calls st' |})
              end
          end
      end
  end.

(** Modelled from the spec: [evaluate(root, ruleSet)], with a cache
    scoped to the call. *)
Definition evaluate (root : nat) : option (R * State R) :=
  visit (length g) root initial.

(** Operands come before their parents. *)
Fixpoint wf_from (i : nat) (nodes : list (Node L)) : bool :=
  match nodes with
  | [] => true
  | node :: nodes' =>
      forallb (fun j => Nat.ltb j i) (args node) && wf_from (S i) nodes'
  end.

(** [i] is [n] or a node below it. *)
Inductive reachable : nat -> nat -> Prop :=
| reachable_refl (n : nat) : reachable n n
| reachable_step (n j i : nat) (node : Node L) :
    g !! n = Some node -> In j (args node) -> reachable j i ->
    reachable n i.

(** The state invariant of an evaluation: the rule was invoked once
    for every cached node and for no other, and the cache holds the
    operands of every node it holds. *)
Definition consistent (st : State R) : Prop :=
  (forall i, invocations i (calls st) =
             match cache st !! i with Some _ => 1%nat | None => 0%nat end) /\
  (forall i node j,
     is_Some (cache st !! i) -> g !! i = Some node -> In j (args node) ->
     is_Some (cache st !! j)).

(** Nothing cached is lost or changed. *)
Definition extends (st st' : State R) : Prop :=
  forall i, is_Some (cache st !! i) -> cache st' !! i = cache st !! i.

(** What the evaluation of node [n] establishes. *)
Definition visit_ok (visit : nat -> State R -> option (R * State R))
  (n : nat) : Prop :=
  forall st, consistent st ->
    exists r st',
      visit n st = Some (r, st') /\
      consistent st' /\ extends st st' /\
      cache st' !! n = Some r /\
      (forall i, is_Some (cache st' !! i) ->
                 is_Some (cache st !! i) \/ reachable n i).

End Evaluate.

Definition wf {L : Type} (g : list (Node L)) : bool := wf_from O g.

End Traversal.

(** ** Conditions on the inputs *)

(** Every exponent of a power node that converts to an integer converts to
    a non-negative one. *)
Fixpoint nonneg_exponents (py_int : Expr -> Exc Z) (e : Expr) : bool :=
  match e with
  | Terminal | ScalarValue _ | Zero | SpatialCoordinate | FormArgument _ => true
  | Operator l | Product l => forallb (nonneg_exponents py_int) l
  | SpatialDerivative a b | Division a b | BesselFunction a b =>
      nonneg_exponents py_int a && nonneg_exponents py_int b
  | Power a b =>
      match py_int b with
      | Ok k => Z.leb 0 k
      | Raise _ => true
      end && nonneg_exponents py_int a && nonneg_exponents py_int b
  | MathFunction _ a => nonneg_exponents py_int a
  end.

(** Every generic compound node has at least one operand. *)
Fixpoint operators_nonempty (e : Expr) : bool :=
  match e with
  | Terminal | ScalarValue _ | Zero | SpatialCoordinate | FormArgument _ => true
  | Operator l => truthy l && forallb operators_nonempty l
  | Product l => forallb operators_nonempty l
  | SpatialDerivative a b | Division a b | Power a b | BesselFunction a b =>
      operators_nonempty a && operators_nonempty b
  | MathFunction _ a => operators_nonempty a
  end.

(** Not a form without integrals. *)
Definition has_integrand (e : Target) : bool :=
  match e with
  | OfForm e => truthy (integrals e)
  | _ => true
  end.

(** The expressions a driving function evaluates. *)
Definition roots (e : Target) : list Expr :=
  match e with
  | OfForm e => map integrand (integrals e)
  | OfIntegral e => [integrand e]
  | OfExpr e => [e]
  end.

(** A degree that is absent or a non-negative integer. *)
Definition absent_or_nonneg (r : option Z) : bool :=
  match r with
  | None => true
  | Some k => Z.leb 0 k
  end.

(** ** Shapes of expressions *)

(** No spatial coordinate and no form argument anywhere in the
    expression. *)
Fixpoint is_constant (e : Expr) : bool :=
  match e with
  | Terminal | ScalarValue _ | Zero => true
  | SpatialCoordinate | FormArgument _ => false
  | Operator l | Product l => forallb is_constant l
  | SpatialDerivative a b | Division a b | Power a b | BesselFunction a b =>
      is_constant a && is_constant b
  | MathFunction _ a => is_constant a
  end.

(** Every form argument is bound to an element that has a degree. *)
Fixpoint degrees_specified (e : Expr) : bool :=
  match e with
  | FormArgument None => false
  | Terminal | ScalarValue _ | Zero | SpatialCoordinate | FormArgument (Some _) =>
      true
  | Operator l | Product l => forallb degrees_specified l
  | SpatialDerivative a b | Division a b | Power a b | BesselFunction a b =>
      degrees_specified a && degrees_specified b
  | MathFunction _ a => degrees_specified a
  end.

(** The leaves are all form arguments of unspecified degree, and there is
    no product. *)
Fixpoint unresolved (e : Expr) : bool :=
  match e with
  | FormArgument None => true
  | Terminal | ScalarValue _ | Zero | SpatialCoordinate | FormArgument (Some _) =>
      false
  | Operator l => forallb unresolved l
  | Product l => false
  | SpatialDerivative a b | Division a b | Power a b | BesselFunction a b =>
      unresolved a && unresolved b
  | MathFunction _ a => unresolved a
  end.

(** What an expression puts into its max estimate: 0 for a terminal, the
    element's degree for a form argument, and the default degree once for
    every product. *)
Fixpoint contributions (default_degree : Z) (e : Expr) : list (option Z) :=
  match e with
  | Terminal | ScalarValue _ | Zero | SpatialCoordinate => [Some 0]
  | FormArgument d => [option_map Z.of_N d]
  | Operator l => concat (map (contributions default_degree) l)
  | Product l =>
      concat (map (contributions default_degree) l) ++ [Some default_degree]
  | SpatialDerivative a b | Division a b | Power a b | BesselFunction a b =>
      contributions default_degree a ++ contributions default_degree b
  | MathFunction _ a => contributions default_degree a
  end.

(** The greatest element of a list in the ordering of [Py.max2]; [None]
    for the empty list. *)
Definition maximum (l : list (option Z)) : option Z :=
  fold_right Py.max2 None l.

(** ** The integer conversion of literals *)

(** Python's [int] on a number: an [int] is itself, a [float] is
    truncated toward zero; infinity and NaN do not convert. *)
Definition int_of_num (v : PyNum) : Exc Z :=
  match v with
  | PyInt z => Ok z
  | PyFloat (S754_zero _) => Ok 0
  | PyFloat (S754_finite s m e) => Ok (cond_Zopp s (Z.shiftl (Zpos m) e))
  | PyFloat (S754_infinity _) => Raise OverflowError
  | PyFloat S754_nan => Raise ValueError
  end.

(** Modelled from the spec: the integer conversion of a raw operand (the
    [__int__] of the node classes, which are not among the sources): a
    numeric constant converts as Python's [int] converts its value, and
    no other node converts. *)
Definition int_of_value (g : Expr) : Exc Z :=
  match g with
  | ScalarValue v => int_of_num v
  | _ => Raise TypeError
  end.

(** ** Inputs used in the examples *)

(** An integer conversion that accepts integer literals and nothing else. *)
Definition int_of_literal (g : Expr) : Exc Z :=
  match g with
  | ScalarValue (PyInt k) => Ok k
  | _ => Raise TypeError
  end.

(** A stand-in for the C library, for inputs on which it is not called. *)
Definition no_libm (fn : MathFn) (x : spec_float) : spec_float := x.

(** A graph in which node 0 is shared: node 1 refers to it twice and
    node 2 refers to node 1 and to node 0. *)
Definition shared_graph : list (Traversal.Node Kind.t) :=
  [ {| Traversal.label := Kind.terminal; Traversal.args := [] |};
    {| Traversal.label := Kind.product; Traversal.args := [0; 0]%nat |};
    {| Traversal.label := Kind.expr; Traversal.args := [1; 0]%nat |} ].

(** A rule that adds one to the sum of the operand results. *)
Definition counting_rule (node : Traversal.Node Kind.t) (rs : list Z) : Z :=
  1 + Py.sum rs.

(** * Properties *)

(** ** Proof steps *)

(** The result [r] of the operand [a]: the case in which evaluating [a]
    raises is closed by the hypothesis that the parent returned. *)
Ltac operand_result a r :=
  destruct (Transformer.visit _ a) as [r|] eqn:?; simpl; [|discriminate].

(** The same for a list of operands. *)
Ltac operand_results l rs H :=
  destruct (map_exc _ l) as [rs|] eqn:H; simpl; [|discriminate].

(** ** Induction on expressions *)

Lemma Expr_ind (P : Expr -> Prop) :
  P Terminal ->
  (forall v, P (ScalarValue v)) ->
  P Zero ->
  P SpatialCoordinate ->
  (forall d, P (FormArgument d)) ->
  (forall ops, Forall P ops -> P (Operator ops)) ->
  (forall f i, P f -> P i -> P (SpatialDerivative f i)) ->
  (forall ops, Forall P ops -> P (Product ops)) ->
  (forall a b, P a -> P b -> P (Division a b)) ->
  (forall a b, P a -> P b -> P (Power a b)) ->
  (forall fn a, P a -> P (MathFunction fn a)) ->
  (forall nu x, P nu -> P x -> P (BesselFunction nu x)) ->
  forall e, P e.
Proof.
  intros HT HS HZ HX HF HO HD HP HQ HW HM HB.
  fix IH 1.
  intros [ | v | | | d | ops | f i | ops | a b | a b | fn a | nu x ].
  - exact HT.
  - apply HS.
  - exact HZ.
  - exact HX.
  - apply HF.
  - apply HO. induction ops as [|x l IHl]; constructor; [apply IH | exact IHl].
  - apply HD; apply IH.
  - apply HP. induction ops as [|x l IHl]; constructor; [apply IH | exact IHl].
  - apply HQ; apply IH.
  - apply HW; apply IH.
  - apply HM; apply IH.
  - apply HB; apply IH.
Qed.

(** ** The engine, unfolded *)

Section EngineFacts.
Context {R : Type} (rules : Transformer.RuleSet R).

Lemma visit_eq (v : Expr) :
  Transformer.visit rules v =
    (ops <- map_exc (Transformer.visit rules) (operands v) ;;
     h <- Transformer.resolve rules v ;;
     h v ops).
Proof.
  assert (Hgo : forall l,
    (fix go (l : list Expr) : Exc (list R) :=
       match l with
       | [] => Ok []
       | x :: l' =>
           r <- Transformer.visit rules x ;; rs <- go l' ;; Ok (r :: rs)
       end) l = map_exc (Transformer.visit rules) l).
  { induction l as [|x l IHl]; simpl; [reflexivity|].
    destruct (Transformer.visit rules x); simpl; [|reflexivity].
    now rewrite IHl. }
  destruct v as [ | | | | | | a b | | a b | a b | | a b ];
    simpl; try reflexivity; try (now rewrite Hgo).
  all: destruct (Transformer.visit rules a); simpl; [|reflexivity].
  all: destruct (Transformer.visit rules b); reflexivity.
Qed.

Lemma visit_binary (v a b : Expr) (ra rb : R) :
  operands v = [a; b] ->
  Transformer.visit rules a = Ok ra ->
  Transformer.visit rules b = Ok rb ->
  Transformer.visit rules v =
    (h <- Transformer.resolve rules v ;; h v [ra; rb]).
Proof.
  intros Hops Ha Hb. rewrite visit_eq, Hops. simpl.
  now rewrite Ha, Hb.
Qed.

Lemma visit_unary (v a : Expr) (ra : R) :
  operands v = [a] ->
  Transformer.visit rules a = Ok ra ->
  Transformer.visit rules v =
    (h <- Transformer.resolve rules v ;; h v [ra]).
Proof.
  intros Hops Ha. rewrite visit_eq, Hops. simpl. now rewrite Ha.
Qed.

End EngineFacts.

(** A bare expression goes through the driving functions unchanged. *)
Lemma estimate_total_of_expr (py_int : Expr -> Exc Z) (e : Expr) (dflt : Z) :
  estimate_total_polynomial_degree py_int (OfExpr e) dflt =
    SumDegreeEstimator.visit py_int dflt e.
Proof.
  unfold estimate_total_polynomial_degree.
  destruct (SumDegreeEstimator.visit py_int dflt e); reflexivity.
Qed.

Lemma estimate_max_of_expr (e : Expr) (dflt : Z) :
  estimate_max_polynomial_degree (OfExpr e) dflt =
    MaxDegreeEstimator.visit dflt e.
Proof.
  unfold estimate_max_polynomial_degree.
  destruct (MaxDegreeEstimator.visit dflt e); reflexivity.
Qed.

(** ** Scenarios *)

Example terminal_degree :
  estimate_total_polynomial_degree int_of_literal (OfExpr Terminal) 1 = Ok 0.
Proof. reflexivity. Qed.

Example spatial_coordinate_degree :
  estimate_total_polynomial_degree int_of_literal (OfExpr SpatialCoordinate) 1
  = Ok 1.
Proof. reflexivity. Qed.

Example unspecified_element_degree :
  estimate_total_polynomial_degree int_of_literal (OfExpr (FormArgument None)) 3
  = Ok 3.
Proof. reflexivity. Qed.

(** [(x + 1)/(x - 1)] for a coordinate [x]: the quotient of two sums of
    degree 1 gets degree 2. *)
Example quotient_degree :
  estimate_total_polynomial_degree int_of_literal
    (OfExpr (Division
               (Operator [SpatialCoordinate; ScalarValue (PyInt 1)])
               (Operator [SpatialCoordinate; ScalarValue (PyInt (-1))]))) 1
  = Ok 2.
Proof. reflexivity. Qed.

(** A compound of two spatial derivatives of form arguments of degree 2. *)
Example inner_of_derivatives_degree :
  estimate_total_polynomial_degree int_of_literal
    (OfExpr (Operator [SpatialDerivative (FormArgument (Some 2%N)) Terminal;
                       SpatialDerivative (FormArgument (Some 2%N)) Terminal])) 1
  = Ok 1.
Proof. reflexivity. Qed.

(** ** The power rule *)

(** The two branches of the power rule: for a power node whose base has
    estimated degree [d], the sum rule set returns [d*k] when the
    conversion of the raw exponent operand returns [k], and [d*2] when it
    raises. *)
Lemma power_degree (py_int : Expr -> Exc Z) (dflt : Z) (f g : Expr) (d b : Z) :
  SumDegreeEstimator.visit py_int dflt f = Ok d ->
  SumDegreeEstimator.visit py_int dflt g = Ok b ->
  (forall k, py_int g = Ok k ->
     SumDegreeEstimator.visit py_int dflt (Power f g) = Ok (d * k) /\
     estimate_total_polynomial_degree py_int (OfExpr (Power f g)) dflt = Ok (d * k)) /\
  (forall err, py_int g = Raise err ->
     SumDegreeEstimator.visit py_int dflt (Power f g) = Ok (d * 2) /\
     estimate_total_polynomial_degree py_int (OfExpr (Power f g)) dflt = Ok (d * 2)).
Proof.
  intros Hf Hg.
  assert (Hv : SumDegreeEstimator.visit py_int dflt (Power f g) =
               SumDegreeEstimator.power py_int (Power f g) [d; b]).
  { unfold SumDegreeEstimator.visit in *.
    now rewrite (visit_binary _ (Power f g) f g d b eq_refl Hf Hg). }
  split; intros x Hx; rewrite estimate_total_of_expr, Hv; simpl; rewrite Hx; auto.
Qed.

Lemma power_degree_witness :
  (forall k, int_of_literal (ScalarValue (PyInt 2)) = Ok k ->
     SumDegreeEstimator.visit int_of_literal 1
       (Power SpatialCoordinate (ScalarValue (PyInt 2))) = Ok (1 * k) /\
     estimate_total_polynomial_degree int_of_literal
       (OfExpr (Power SpatialCoordinate (ScalarValue (PyInt 2)))) 1 = Ok (1 * k)) /\
  (forall err, int_of_literal (ScalarValue (PyInt 2)) = Raise err ->
     SumDegreeEstimator.visit int_of_literal 1
       (Power SpatialCoordinate (ScalarValue (PyInt 2))) = Ok (1 * 2) /\
     estimate_total_polynomial_degree int_of_literal
       (OfExpr (Power SpatialCoordinate (ScalarValue (PyInt 2)))) 1 = Ok (1 * 2)).
Proof.
  apply (power_degree int_of_literal 1 SpatialCoordinate
           (ScalarValue (PyInt 2)) 1 0); reflexivity.
Defined.

(** C1: a float literal in the exponent does not take the heuristic
    branch: its conversion to an integer succeeds by truncation, so the
    power gets the base degree times the truncated exponent; with the
    exponent [0.5] that is the base degree times 0, where the docstring of
    the rule, and the claim, give the base degree times 2. *)
Theorem power_truncates_exponent (dflt : Z) (f : Expr) (x : spec_float) :
  SumDegreeEstimator.visit int_of_value dflt (Power f (ScalarValue (PyFloat x))) =
    (d <- SumDegreeEstimator.visit int_of_value dflt f ;;
     match int_of_num (PyFloat x) with
     | Ok k => Ok (d * k)
     | Raise _ => Ok (d * 2)
     end) /\
  int_of_num (PyFloat Math.one_half) = Ok 0 /\
  SumDegreeEstimator.visit int_of_value dflt
    (Power f (ScalarValue (PyFloat Math.one_half))) =
    (d <- SumDegreeEstimator.visit int_of_value dflt f ;; Ok (d * 0)) /\
  estimate_total_polynomial_degree int_of_value
    (OfExpr (Power SpatialCoordinate (ScalarValue (PyFloat Math.one_half)))) 1
    = Ok 0 /\
  estimate_total_polynomial_degree int_of_value (OfExpr SpatialCoordinate) 1
    = Ok 1 /\
  estimate_total_polynomial_degree int_of_value
    (OfExpr (Power SpatialCoordinate (ScalarValue (PyInt 2)))) 1 = Ok 2 /\
  estimate_total_polynomial_degree int_of_value
    (OfExpr (Power SpatialCoordinate SpatialCoordinate)) 1 = Ok 2.
Proof.
  assert (Hgen : forall y,
    SumDegreeEstimator.visit int_of_value dflt (Power f (ScalarValue (PyFloat y))) =
      (d <- SumDegreeEstimator.visit int_of_value dflt f ;;
       match int_of_num (PyFloat y) with
       | Ok k => Ok (d * k)
       | Raise _ => Ok (d * 2)
       end)).
  { intros y. unfold SumDegreeEstimator.visit. rewrite visit_eq.
    simpl operands. cbn [map_exc].
    destruct (Transformer.visit _ f) as [d|]; reflexivity. }
  split; [apply Hgen|]. split; [reflexivity|]. split; [|repeat split].
  rewrite Hgen. reflexivity.
Qed.

(** ** Facts about the built-ins *)

Lemma sum_from (ds : list Z) (acc : Z) :
  fold_left Z.add ds acc = acc + Py.sum ds.
Proof.
  unfold Py.sum. revert acc.
  induction ds as [|d ds IH]; intros acc; cbn [fold_left]; [lia|].
  rewrite (IH (acc + d)), (IH (0 + d)). lia.
Qed.

Lemma sum_cons (d : Z) (ds : list Z) : Py.sum (d :: ds) = d + Py.sum ds.
Proof. unfold Py.sum at 1. simpl. apply sum_from. Qed.

Lemma fold_max_lower (l : list Z) (x : Z) : x <= fold_left Z.max l x.
Proof.
  revert x. induction l as [|y l IH]; intros x; simpl; [lia|].
  specialize (IH (Z.max x y)). lia.
Qed.

Lemma fold_max_upper (l : list Z) (x d : Z) :
  In d l -> d <= fold_left Z.max l x.
Proof.
  revert x. induction l as [|y l IH]; intros x; simpl; [tauto|].
  intros [->|Hd]; [|now apply IH].
  pose proof (fold_max_lower l (Z.max x d)). lia.
Qed.

Lemma fold_max_attained (l : list Z) (x : Z) :
  fold_left Z.max l x = x \/ In (fold_left Z.max l x) l.
Proof.
  revert x. induction l as [|y l IH]; intros x; simpl; [now left|].
  destruct (IH (Z.max x y)) as [H|H]; [|now right; right].
  rewrite H. destruct (Z.max_spec x y) as [[_ ->]|[_ ->]]; auto.
Qed.

Lemma not_none_In (ops : list (option Z)) (d : Z) :
  In d (Py.not_none ops) <-> In (Some d) ops.
Proof.
  induction ops as [|[x|] ops IH]; simpl; [tauto| |].
  - rewrite IH. split; intros [H|H]; auto; left; congruence.
  - rewrite IH. split; [auto|]. intros [H|H]; [discriminate|auto].
Qed.

(** ** Products and quotients under the sum rule set *)

(** C5: under the sum rule set a product node and a division node get the
    sum of their operands' degrees; for two expressions [a] and [b] the
    estimated total degrees of [a*b] and of [a/b] are the sum of those of
    [a] and [b]. *)
Theorem product_division_degree (py_int : Expr -> Exc Z) (dflt : Z)
  (a b : Expr) (da db : Z) (ops : list Expr) (ds : list Z) :
  estimate_total_polynomial_degree py_int (OfExpr a) dflt = Ok da ->
  estimate_total_polynomial_degree py_int (OfExpr b) dflt = Ok db ->
  map_exc (SumDegreeEstimator.visit py_int dflt) ops = Ok ds ->
  SumDegreeEstimator.visit py_int dflt (Product ops) = Ok (fold_right Z.add 0 ds) /\
  SumDegreeEstimator.visit py_int dflt (Division a b) = Ok (da + db) /\
  estimate_total_polynomial_degree py_int (OfExpr (Product [a; b])) dflt = Ok (da + db) /\
  estimate_total_polynomial_degree py_int (OfExpr (Division a b)) dflt = Ok (da + db).
Proof.
  rewrite !estimate_total_of_expr. intros Ha Hb Hops.
  assert (Hsum : forall l, Py.sum l = fold_right Z.add 0 l).
  { induction l as [|x l IH]; [reflexivity|]. rewrite sum_cons, IH. reflexivity. }
  assert (Hdiv : SumDegreeEstimator.visit py_int dflt (Division a b) = Ok (da + db)).
  { unfold SumDegreeEstimator.visit in *.
    rewrite (visit_binary _ (Division a b) a b da db eq_refl Ha Hb).
    cbn. first [reflexivity | f_equal; lia]. }
  repeat split; try exact Hdiv.
  - unfold SumDegreeEstimator.visit in *. rewrite visit_eq. simpl operands.
    rewrite Hops. simpl. unfold SumDegreeEstimator.product. now rewrite Hsum.
  - unfold SumDegreeEstimator.visit in *. rewrite visit_eq. simpl operands.
    simpl map_exc. rewrite Ha, Hb. cbn. first [reflexivity | f_equal; lia].
Qed.

Lemma product_division_degree_witness :
  SumDegreeEstimator.visit int_of_literal 1
    (Product [SpatialCoordinate; FormArgument (Some 2%N); FormArgument None])
    = Ok (fold_right Z.add 0 [1; 2; 1]) /\
  SumDegreeEstimator.visit int_of_literal 1
    (Division SpatialCoordinate (FormArgument (Some 2%N))) = Ok (1 + 2) /\
  estimate_total_polynomial_degree int_of_literal
    (OfExpr (Product [SpatialCoordinate; FormArgument (Some 2%N)])) 1 = Ok (1 + 2) /\
  estimate_total_polynomial_degree int_of_literal
    (OfExpr (Division SpatialCoordinate (FormArgument (Some 2%N)))) 1 = Ok (1 + 2).
Proof.
  apply (product_division_degree int_of_literal 1 SpatialCoordinate
           (FormArgument (Some 2%N)) 1 2
           [SpatialCoordinate; FormArgument (Some 2%N); FormArgument None]
           [1; 2; 1]); reflexivity.
Defined.

(** ** Math functions and Bessel functions under the sum rule set *)

(** C6: under the sum rule set a math-function node gets degree 0 when its
    operand has degree 0 and the operand's degree plus 2 otherwise; a
    Bessel-function node gets the same from the degree of its argument
    alone, whatever the degree of the order operand. *)
Theorem math_function_degree (py_int : Expr -> Exc Z) (dflt : Z)
  (fn : MathFn) (a nu x : Expr) (da dnu dx : Z) :
  SumDegreeEstimator.visit py_int dflt a = Ok da ->
  SumDegreeEstimator.visit py_int dflt nu = Ok dnu ->
  SumDegreeEstimator.visit py_int dflt x = Ok dx ->
  SumDegreeEstimator.visit py_int dflt (MathFunction fn a)
    = Ok (if Z.eqb da 0 then 0 else da + 2) /\
  SumDegreeEstimator.visit py_int dflt (BesselFunction nu x)
    = Ok (if Z.eqb dx 0 then 0 else dx + 2).
Proof.
  unfold SumDegreeEstimator.visit. intros Ha Hnu Hx. split.
  - rewrite (visit_unary _ (MathFunction fn a) a da eq_refl Ha). simpl.
    destruct (Z.eqb_spec da 0) as [->|_]; reflexivity.
  - rewrite (visit_binary _ (BesselFunction nu x) nu x dnu dx eq_refl Hnu Hx).
    simpl. destruct (Z.eqb_spec dx 0) as [->|_]; reflexivity.
Qed.

Lemma math_function_degree_witness :
  SumDegreeEstimator.visit int_of_literal 1
    (MathFunction Sin (FormArgument (Some 3%N)))
    = Ok (if Z.eqb 3 0 then 0 else 3 + 2) /\
  SumDegreeEstimator.visit int_of_literal 1
    (BesselFunction SpatialCoordinate Terminal)
    = Ok (if Z.eqb 0 0 then 0 else 0 + 2).
Proof.
  apply (math_function_degree int_of_literal 1 Sin (FormArgument (Some 3%N))
           SpatialCoordinate Terminal 3 1 0); reflexivity.
Defined.

(** ** Spatial derivatives *)

(** C8: under the sum rule set a spatial derivative of an operand of
    degree [d] gets [max(d - 1, 0)]; the max rule set has no rule of its
    own for spatial derivatives, which get the generic compound rule, the
    maximum of the operand results: the greater of the two when both are
    integers, the one that is an integer when the other is absent, so
    never less than the degree of the differentiated operand. *)
Theorem spatial_derivative_degree (py_int : Expr -> Exc Z) (dflt : Z)
  (f i : Expr) (d di : Z) (m mi : option Z) :
  SumDegreeEstimator.visit py_int dflt f = Ok d ->
  SumDegreeEstimator.visit py_int dflt i = Ok di ->
  MaxDegreeEstimator.visit dflt f = Ok m ->
  MaxDegreeEstimator.visit dflt i = Ok mi ->
  SumDegreeEstimator.visit py_int dflt (SpatialDerivative f i)
    = Ok (Z.max (d - 1) 0) /\
  MaxDegreeEstimator.rules dflt Kind.spatial_derivative = None /\
  Transformer.resolve (MaxDegreeEstimator.rules dflt) (SpatialDerivative f i)
    = Ok MaxDegreeEstimator.expr /\
  MaxDegreeEstimator.visit dflt (SpatialDerivative f i) = Py.max [m; mi] /\
  Py.max [m; mi] = Ok (Py.max2 m mi) /\
  MaxDegreeEstimator.visit dflt (SpatialDerivative f i) =
    Ok (match m, mi with
        | Some a, Some b => Some (Z.max a b)
        | Some a, None => Some a
        | None, Some b => Some b
        | None, None => None
        end) /\
  (forall a, m = Some a ->
     exists k, MaxDegreeEstimator.visit dflt (SpatialDerivative f i) = Ok (Some k) /\
               a <= k).
Proof.
  unfold SumDegreeEstimator.visit, MaxDegreeEstimator.visit.
  intros Hf Hi Hm Hmi.
  assert (Hv : Transformer.visit (MaxDegreeEstimator.rules dflt)
                 (SpatialDerivative f i) = Py.max [m; mi]).
  { now rewrite (visit_binary _ (SpatialDerivative f i) f i m mi eq_refl Hm Hmi). }
  split; [|split; [|split; [|split; [|split; [|split]]]]];
    try reflexivity; try exact Hv.
  - now rewrite (visit_binary _ (SpatialDerivative f i) f i d di eq_refl Hf Hi).
  - rewrite Hv. now destruct m, mi.
  - intros a ->. rewrite Hv. destruct mi as [b|]; simpl.
    + exists (Z.max a b). split; [reflexivity | lia].
    + exists a. split; [reflexivity | lia].
Qed.

Lemma spatial_derivative_degree_witness :
  SumDegreeEstimator.visit int_of_literal 1
    (SpatialDerivative (FormArgument (Some 2%N)) Terminal)
    = Ok (Z.max (2 - 1) 0) /\
  MaxDegreeEstimator.rules 1 Kind.spatial_derivative = None /\
  Transformer.resolve (MaxDegreeEstimator.rules 1)
    (SpatialDerivative (FormArgument (Some 2%N)) Terminal)
    = Ok MaxDegreeEstimator.expr /\
  MaxDegreeEstimator.visit 1 (SpatialDerivative (FormArgument (Some 2%N)) Terminal)
    = Py.max [Some 2; Some 0] /\
  Py.max [Some 2; Some 0] = Ok (Py.max2 (Some 2) (Some 0)) /\
  MaxDegreeEstimator.visit 1 (SpatialDerivative (FormArgument (Some 2%N)) Terminal) =
    Ok (match Some 2, Some 0 with
        | Some a, Some b => Some (Z.max a b)
        | Some a, None => Some a
        | None, Some b => Some b
        | None, None => None
        end) /\
  (forall a, Some 2 = Some a ->
     exists k,
       MaxDegreeEstimator.visit 1
         (SpatialDerivative (FormArgument (Some 2%N)) Terminal) = Ok (Some k) /\
       a <= k).
Proof.
  apply (spatial_derivative_degree int_of_literal 1 (FormArgument (Some 2%N))
           Terminal 2 0 (Some 2) (Some 0)); reflexivity.
Defined.

(** ** Products under the max rule set *)

Lemma max_product_spec (dflt : Z) (v : Expr) (ops : list (option Z)) :
  exists m : Z,
    MaxDegreeEstimator.product dflt v ops = Ok (Some m) /\
    Py.max_int (Py.not_none ops ++ [dflt]) = Ok m /\
    dflt <= m /\
    (forall d, In (Some d) ops -> d <= m) /\
    (m = dflt \/ In (Some m) ops).
Proof.
  unfold MaxDegreeEstimator.product.
  assert (Hin : forall d, In d (Py.not_none ops ++ [dflt]) <->
                          In (Some d) ops \/ d = dflt).
  { intros d. rewrite in_app_iff, not_none_In. simpl. intuition. }
  destruct (Py.not_none ops ++ [dflt]) as [|x xs] eqn:E.
  { destruct (Py.not_none ops); discriminate. }
  simpl. exists (fold_left Z.max xs x). repeat split.
  - destruct (proj2 (Hin dflt) (or_intror eq_refl)) as [<-|H].
    + apply fold_max_lower.
    + now apply fold_max_upper.
  - intros d Hd. destruct (proj2 (Hin d) (or_introl Hd)) as [<-|H].
    + apply fold_max_lower.
    + now apply fold_max_upper.
  - destruct (fold_max_attained xs x) as [H|H].
    + rewrite H. destruct (proj1 (Hin x) (or_introl eq_refl)); auto.
    + destruct (proj1 (Hin _) (or_intror H)); auto.
Qed.

(** C9: under the max rule set a product node gets the maximum of its
    operand degrees that are not absent together with the default degree,
    which is always included: the result is an integer, never below the
    default. *)
Theorem max_product_degree (dflt : Z) (v : Expr) (ops : list (option Z))
  (l : list Expr) :
  (exists m : Z,
     MaxDegreeEstimator.product dflt v ops = Ok (Some m) /\
     Py.max_int (Py.not_none ops ++ [dflt]) = Ok m /\
     dflt <= m /\
     (forall d, In (Some d) ops -> d <= m) /\
     (m = dflt \/ In (Some m) ops)) /\
  MaxDegreeEstimator.visit dflt (Product l) =
    (rs <- map_exc (MaxDegreeEstimator.visit dflt) l ;;
     MaxDegreeEstimator.product dflt (Product l) rs).
Proof.
  split; [apply max_product_spec|].
  unfold MaxDegreeEstimator.visit; now rewrite visit_eq.
Qed.

(** ** Non-negativity of degrees *)

Lemma map_exc_Forall {A B : Type} (f : A -> Exc B) (P : A -> Prop)
  (Q : B -> Prop) (l : list A) (rs : list B) :
  Forall (fun x => P x -> forall r, f x = Ok r -> Q r) l ->
  Forall P l ->
  map_exc f l = Ok rs ->
  Forall Q rs.
Proof.
  intros HF. revert rs.
  induction HF as [|x l Hx HF IH]; intros rs HP; simpl.
  - intros [= <-]. constructor.
  - inversion HP as [|? ? Px Pl]; subst.
    destruct (f x) as [r|] eqn:Hr; simpl; [|discriminate].
    destruct (map_exc f l) as [rs'|]; simpl; [|discriminate].
    intros [= <-]. constructor; [now apply Hx | now apply IH].
Qed.

Lemma forallb_Forall_true {A : Type} (p : A -> bool) (l : list A) :
  forallb p l = true -> Forall (fun x => p x = true) l.
Proof.
  induction l as [|x l IH]; simpl; [constructor|].
  intros [Hx Hl]%andb_prop. constructor; auto.
Qed.

Lemma sum_nonneg (ds : list Z) : Forall (fun d => 0 <= d) ds -> 0 <= Py.sum ds.
Proof.
  induction 1 as [|d ds Hd _ IH]; [reflexivity|]. rewrite sum_cons. lia.
Qed.

Lemma max_int_nonneg (ds : list Z) (m : Z) :
  Forall (fun d => 0 <= d) ds -> Py.max_int ds = Ok m -> 0 <= m.
Proof.
  intros [|d ds' Hd _]; simpl; [discriminate|].
  intros [= <-]. pose proof (fold_max_lower ds' d). lia.
Qed.

Lemma max2_absent_or_nonneg (x y : option Z) :
  absent_or_nonneg x = true -> absent_or_nonneg y = true ->
  absent_or_nonneg (Py.max2 x y) = true.
Proof.
  destruct x as [a|], y as [b|]; simpl; auto.
  intros Ha Hb. apply Z.leb_le in Ha. apply Z.leb_le. lia.
Qed.

Lemma max_absent_or_nonneg (rs : list (option Z)) (m : option Z) :
  Forall (fun r => absent_or_nonneg r = true) rs ->
  Py.max rs = Ok m -> absent_or_nonneg m = true.
Proof.
  intros [|r rs' Hr Hrs]; simpl; [discriminate|].
  intros [= <-]. revert r Hr.
  induction Hrs as [|y l Hy _ IH]; intros r Hr; simpl; [exact Hr|].
  apply IH. now apply max2_absent_or_nonneg.
Qed.

Lemma map_exc_total {A B : Type} (f : A -> Exc B) (P : A -> Prop)
  (l : list A) :
  Forall (fun x => P x -> exists r, f x = Ok r) l ->
  Forall P l ->
  exists rs, map_exc f l = Ok rs /\ length rs = length l.
Proof.
  intros HF. induction HF as [|x l Hx HF IH]; intros HP; simpl.
  - exists []. auto.
  - inversion HP as [|? ? Px Pl]; subst.
    destruct (Hx Px) as [r ->]. destruct (IH Pl) as (rs & -> & Hlen).
    exists (r :: rs). simpl. auto.
Qed.

Section Total.
Variable py_int : Expr -> Exc Z.
Variable dflt : Z.

Lemma sum_visit_total (e : Expr) :
  operators_nonempty e = true ->
  exists r, SumDegreeEstimator.visit py_int dflt e = Ok r.
Proof.
  unfold SumDegreeEstimator.visit.
  induction e as [ | v | | | d | ops IH | f i IHf IHi | ops IH
                 | a b IHa IHb | a b IHa IHb | fn a IHa | nu x IHnu IHx ]
    using Expr_ind;
    intros Hwf; rewrite visit_eq; simpl operands; simpl in Hwf.
  1-5: simpl; eauto.
  - apply andb_prop in Hwf as [Hne Hwf]. apply forallb_Forall_true in Hwf.
    destruct (map_exc_total _ _ _ IH Hwf) as (rs & -> & Hlen). simpl.
    destruct ops; [discriminate|]. destruct rs; [discriminate|].
    simpl. eauto.
  - apply andb_prop in Hwf as [Hf Hi]. simpl map_exc.
    destruct (IHf Hf) as [rf ->]. destruct (IHi Hi) as [ri ->]. simpl. eauto.
  - apply forallb_Forall_true in Hwf.
    destruct (map_exc_total _ _ _ IH Hwf) as (rs & -> & Hlen). simpl. eauto.
  - apply andb_prop in Hwf as [Ha Hb]. simpl map_exc.
    destruct (IHa Ha) as [ra ->]. destruct (IHb Hb) as [rb ->]. simpl. eauto.
  - apply andb_prop in Hwf as [Ha Hb]. simpl map_exc.
    destruct (IHa Ha) as [ra ->]. destruct (IHb Hb) as [rb ->]. simpl.
    destruct (py_int b); eauto.
  - simpl map_exc. destruct (IHa Hwf) as [ra ->]. simpl.
    destruct (Z.eqb ra 0); eauto.
  - apply andb_prop in Hwf as [Hnu Hx]. simpl map_exc.
    destruct (IHnu Hnu) as [rnu ->]. destruct (IHx Hx) as [rx ->]. simpl.
    destruct (Z.eqb rx 0); eauto.
Qed.

Lemma max_visit_total (e : Expr) :
  operators_nonempty e = true ->
  exists r, MaxDegreeEstimator.visit dflt e = Ok r.
Proof.
  unfold MaxDegreeEstimator.visit.
  induction e as [ | v | | | d | ops IH | f i IHf IHi | ops IH
                 | a b IHa IHb | a b IHa IHb | fn a IHa | nu x IHnu IHx ]
    using Expr_ind;
    intros Hwf; rewrite visit_eq; simpl operands; simpl in Hwf.
  1-5: simpl; eauto.
  - apply andb_prop in Hwf as [Hne Hwf]. apply forallb_Forall_true in Hwf.
    destruct (map_exc_total _ _ _ IH Hwf) as (rs & -> & Hlen). simpl.
    destruct ops; [discriminate|]. destruct rs; [discriminate|].
    simpl. eauto.
  - apply andb_prop in Hwf as [Hf Hi]. simpl map_exc.
    destruct (IHf Hf) as [rf ->]. destruct (IHi Hi) as [ri ->]. simpl. eauto.
  - apply forallb_Forall_true in Hwf.
    destruct (map_exc_total _ _ _ IH Hwf) as (rs & -> & Hlen). simpl.
    destruct (max_product_spec dflt (Product ops) rs) as (m & -> & _). eauto.
  - apply andb_prop in Hwf as [Ha Hb]. simpl map_exc.
    destruct (IHa Ha) as [ra ->]. destruct (IHb Hb) as [rb ->]. simpl. eauto.
  - apply andb_prop in Hwf as [Ha Hb]. simpl map_exc.
    destruct (IHa Ha) as [ra ->]. destruct (IHb Hb) as [rb ->]. simpl. eauto.
  - simpl map_exc. destruct (IHa Hwf) as [ra ->]. simpl. eauto.
  - apply andb_prop in Hwf as [Hnu Hx]. simpl map_exc.
    destruct (IHnu Hnu) as [rnu ->]. destruct (IHx Hx) as [rx ->]. simpl. eauto.
Qed.

End Total.

Section Nonneg.
Variable py_int : Expr -> Exc Z.
Variable dflt : Z.
Hypothesis dflt_nonneg : 0 <= dflt.

Lemma sum_visit_nonneg (e : Expr) :
  nonneg_exponents py_int e = true ->
  forall r, SumDegreeEstimator.visit py_int dflt e = Ok r -> 0 <= r.
Proof.
  unfold SumDegreeEstimator.visit.
  induction e as [ | v | | | d | ops IH | f i IHf IHi | ops IH
                 | a b IHa IHb | a b IHa IHb | fn a IHa | nu x IHnu IHx ]
    using Expr_ind;
    intros Hwf r; rewrite visit_eq; simpl operands.
  1-4: simpl; intros [= <-]; lia.
  - simpl. intros [= <-]. destruct d; lia.
  - simpl in Hwf. apply forallb_Forall_true in Hwf.
    operand_results ops rs Hrs.
    apply max_int_nonneg.
    exact (map_exc_Forall _ _ _ _ _ IH Hwf Hrs).
  - simpl in Hwf. apply andb_prop in Hwf as [Hf Hi]. simpl map_exc.
    operand_result f rf.
    operand_result i ri.
    intros [= <-]. lia.
  - simpl in Hwf. apply forallb_Forall_true in Hwf.
    operand_results ops rs Hrs.
    intros [= <-]. apply sum_nonneg.
    exact (map_exc_Forall _ _ _ _ _ IH Hwf Hrs).
  - simpl in Hwf. apply andb_prop in Hwf as [Ha Hb]. simpl map_exc.
    operand_result a ra.
    operand_result b rb.
    intros [= <-]. specialize (IHa Ha ra eq_refl). specialize (IHb Hb rb eq_refl).
    rewrite !sum_cons. unfold Py.sum. simpl. lia.
  - simpl in Hwf. apply andb_prop in Hwf as [[Hk Ha]%andb_prop Hb]. simpl map_exc.
    operand_result a ra.
    operand_result b rb.
    specialize (IHa Ha ra eq_refl).
    destruct (py_int b) as [k|]; intros [= <-]; [|lia].
    apply Z.leb_le in Hk. nia.
  - simpl in Hwf. simpl map_exc.
    operand_result a ra.
    specialize (IHa Hwf ra eq_refl).
    destruct (Z.eqb ra 0); intros [= <-]; lia.
  - simpl in Hwf. apply andb_prop in Hwf as [Hnu Hx]. simpl map_exc.
    operand_result nu rnu.
    operand_result x rx.
    specialize (IHx Hx rx eq_refl).
    destruct (Z.eqb rx 0); intros [= <-]; lia.
Qed.

Lemma max_visit_absent_or_nonneg (e : Expr) (r : option Z) :
  MaxDegreeEstimator.visit dflt e = Ok r -> absent_or_nonneg r = true.
Proof.
  unfold MaxDegreeEstimator.visit. revert r.
  assert (Hbin : forall a b : Expr,
    (forall r, Transformer.visit (MaxDegreeEstimator.rules dflt) a = Ok r ->
               absent_or_nonneg r = true) ->
    (forall r, Transformer.visit (MaxDegreeEstimator.rules dflt) b = Ok r ->
               absent_or_nonneg r = true) ->
    forall r,
      (ops <- map_exc (Transformer.visit (MaxDegreeEstimator.rules dflt)) [a; b] ;;
       MaxDegreeEstimator.expr Terminal ops) = Ok r ->
      absent_or_nonneg r = true).
  { intros a b IHa IHb r. simpl map_exc.
    operand_result a ra.
    operand_result b rb.
    intros [= <-]. apply max2_absent_or_nonneg; auto. }
  induction e as [ | v | | | d | ops IH | f i IHf IHi | ops IH
                 | a b IHa IHb | a b IHa IHb | fn a IHa | nu x IHnu IHx ]
    using Expr_ind;
    intros r; rewrite visit_eq; simpl operands.
  1-4: simpl; intros [= <-]; reflexivity.
  - simpl. intros [= <-]. destruct d; simpl; [apply Z.leb_le; lia|reflexivity].
  - operand_results ops rs Hrs.
    apply max_absent_or_nonneg.
    refine (map_exc_Forall _ (fun _ => True) _ _ _ _ _ Hrs).
    + eapply Forall_impl; [exact IH|]. simpl. auto.
    + apply Forall_forall. auto.
  - now apply Hbin.
  - operand_results ops rs Hrs.
    destruct (max_product_spec dflt (Product ops) rs) as (m & Hm & _ & Hle & _).
    unfold MaxDegreeEstimator.rules. simpl. rewrite Hm.
    intros [= <-]. simpl. apply Z.leb_le. lia.
  - now apply Hbin.
  - now apply Hbin.
  - simpl map_exc.
    operand_result a ra.
    intros [= <-]. now apply IHa.
  - now apply Hbin.
Qed.

End Nonneg.

(** ** The driving functions, unfolded *)

Lemma map_exc_map {A B C : Type} (f : B -> Exc C) (g : A -> B) (l : list A) :
  map_exc f (map g l) = map_exc (fun x => f (g x)) l.
Proof.
  induction l as [|x l IH]; simpl; [reflexivity|]. now rewrite IH.
Qed.

Lemma estimate_total_roots (py_int : Expr -> Exc Z) (e : Target) (dflt : Z) :
  estimate_total_polynomial_degree py_int e dflt =
    (_ <- match e with
          | OfForm f => ufl_assert (truthy (integrals f))
          | _ => Ok tt
          end ;;
     degrees <- map_exc (SumDegreeEstimator.visit py_int dflt) (roots e) ;;
     Py.max_int degrees).
Proof.
  unfold estimate_total_polynomial_degree.
  destruct e as [f|i|e]; simpl.
  - rewrite map_exc_map. now destruct (ufl_assert _).
  - now destruct (SumDegreeEstimator.visit py_int dflt (integrand i)).
  - now destruct (SumDegreeEstimator.visit py_int dflt e).
Qed.

Lemma estimate_max_roots (e : Target) (dflt : Z) :
  estimate_max_polynomial_degree e dflt =
    (_ <- match e with
          | OfForm f => ufl_assert (truthy (integrals f))
          | _ => Ok tt
          end ;;
     degrees <- map_exc (MaxDegreeEstimator.visit dflt) (roots e) ;;
     Py.max degrees).
Proof.
  unfold estimate_max_polynomial_degree.
  destruct e as [f|i|e]; simpl.
  - rewrite map_exc_map. now destruct (ufl_assert _).
  - now destruct (MaxDegreeEstimator.visit dflt (integrand i)).
  - now destruct (MaxDegreeEstimator.visit dflt e).
Qed.

Lemma estimate_total_total (py_int : Expr -> Exc Z) (e : Target) (dflt : Z) :
  has_integrand e = true ->
  forallb operators_nonempty (roots e) = true ->
  exists r, estimate_total_polynomial_degree py_int e dflt = Ok r.
Proof.
  intros Hint Hwf. rewrite estimate_total_roots.
  apply forallb_Forall_true in Hwf.
  destruct (map_exc_total (SumDegreeEstimator.visit py_int dflt)
              (fun x => operators_nonempty x = true) (roots e))
    as (ds & Hds & Hlen); [|exact Hwf|].
  { apply Forall_forall. intros x _. apply sum_visit_total. }
  assert (Hguard : match e with
                   | OfForm f => ufl_assert (truthy (integrals f))
                   | _ => Ok tt
                   end = Ok tt).
  { destruct e as [f| |]; try reflexivity. simpl in Hint. now rewrite Hint. }
  rewrite Hguard, Hds. simpl.
  destruct ds as [|d ds]; [|simpl; eauto].
  destruct e as [[[|i l]]| |]; discriminate.
Qed.

Lemma estimate_max_total (e : Target) (dflt : Z) :
  has_integrand e = true ->
  forallb operators_nonempty (roots e) = true ->
  exists r, estimate_max_polynomial_degree e dflt = Ok r.
Proof.
  intros Hint Hwf. rewrite estimate_max_roots.
  apply forallb_Forall_true in Hwf.
  destruct (map_exc_total (MaxDegreeEstimator.visit dflt)
              (fun x => operators_nonempty x = true) (roots e))
    as (ds & Hds & Hlen); [|exact Hwf|].
  { apply Forall_forall. intros x _. apply max_visit_total. }
  assert (Hguard : match e with
                   | OfForm f => ufl_assert (truthy (integrals f))
                   | _ => Ok tt
                   end = Ok tt).
  { destruct e as [f| |]; try reflexivity. simpl in Hint. now rewrite Hint. }
  rewrite Hguard, Hds. simpl.
  destruct ds as [|d ds]; [|simpl; eauto].
  destruct e as [[[|i l]]| |]; discriminate.
Qed.

(** C2, as the code has it: when the default degree is non-negative and
    every power exponent that converts to an integer converts to a
    non-negative one, every degree the sum rule set computes is a
    non-negative integer and every value the max rule set computes is
    absent or a non-negative integer; so are the results of the two
    driving functions.  A degree is computed whenever every generic
    compound node has an operand and the target is not a form without
    integrals. *)
Theorem degree_nonneg (py_int : Expr -> Exc Z) (dflt : Z) (e : Expr)
  (target : Target) :
  0 <= dflt ->
  nonneg_exponents py_int e = true ->
  forallb (nonneg_exponents py_int) (roots target) = true ->
  (forall r, SumDegreeEstimator.visit py_int dflt e = Ok r -> 0 <= r) /\
  (forall r, MaxDegreeEstimator.visit dflt e = Ok r ->
             absent_or_nonneg r = true) /\
  (forall r, estimate_total_polynomial_degree py_int target dflt = Ok r ->
             0 <= r) /\
  (forall r, estimate_max_polynomial_degree target dflt = Ok r ->
             absent_or_nonneg r = true) /\
  (operators_nonempty e = true ->
   (exists r, SumDegreeEstimator.visit py_int dflt e = Ok r) /\
   (exists r, MaxDegreeEstimator.visit dflt e = Ok r)) /\
  (has_integrand target = true ->
   forallb operators_nonempty (roots target) = true ->
   (exists r, estimate_total_polynomial_degree py_int target dflt = Ok r) /\
   (exists r, estimate_max_polynomial_degree target dflt = Ok r)).
Proof.
  intros Hd He Ht.
  split; [|split; [|split; [|split; [|split]]]].
  6: { intros Hint Hwf. split;
       [now apply estimate_total_total | now apply estimate_max_total]. }
  5: { intros Hwf. split;
       [now apply sum_visit_total | now apply max_visit_total]. }
  - now apply sum_visit_nonneg.
  - intros r. now apply max_visit_absent_or_nonneg.
  - intros r. rewrite estimate_total_roots.
    destruct (match target with OfForm f => _ | _ => _ end); simpl; [|discriminate].
    destruct (map_exc _ (roots target)) as [ds|] eqn:Hds; simpl; [|discriminate].
    apply max_int_nonneg.
    refine (map_exc_Forall _ _ _ _ _ _ (forallb_Forall_true _ _ Ht) Hds).
    apply Forall_forall. intros x _. now apply sum_visit_nonneg.
  - intros r. rewrite estimate_max_roots.
    destruct (match target with OfForm f => _ | _ => _ end); simpl; [|discriminate].
    destruct (map_exc _ (roots target)) as [ds|] eqn:Hds; simpl; [|discriminate].
    apply max_absent_or_nonneg.
    refine (map_exc_Forall _ (fun _ => True) _ _ _ _ _ Hds).
    + apply Forall_forall. intros x _ _ r'. now apply max_visit_absent_or_nonneg.
    + apply Forall_forall. auto.
Qed.

Lemma degree_nonneg_witness :
  (forall r, SumDegreeEstimator.visit int_of_literal 1
               (Power SpatialCoordinate (ScalarValue (PyInt 3))) = Ok r ->
             0 <= r) /\
  (forall r, MaxDegreeEstimator.visit 1
               (Power SpatialCoordinate (ScalarValue (PyInt 3))) = Ok r ->
             absent_or_nonneg r = true) /\
  (forall r, estimate_total_polynomial_degree int_of_literal
               (OfIntegral {| integrand := FormArgument None |}) 1 = Ok r ->
             0 <= r) /\
  (forall r, estimate_max_polynomial_degree
               (OfIntegral {| integrand := FormArgument None |}) 1 = Ok r ->
             absent_or_nonneg r = true) /\
  (operators_nonempty (Power SpatialCoordinate (ScalarValue (PyInt 3))) = true ->
   (exists r, SumDegreeEstimator.visit int_of_literal 1
                (Power SpatialCoordinate (ScalarValue (PyInt 3))) = Ok r) /\
   (exists r, MaxDegreeEstimator.visit 1
                (Power SpatialCoordinate (ScalarValue (PyInt 3))) = Ok r)) /\
  (has_integrand (OfIntegral {| integrand := FormArgument None |}) = true ->
   forallb operators_nonempty
     (roots (OfIntegral {| integrand := FormArgument None |})) = true ->
   (exists r, estimate_total_polynomial_degree int_of_literal
                (OfIntegral {| integrand := FormArgument None |}) 1 = Ok r) /\
   (exists r, estimate_max_polynomial_degree
                (OfIntegral {| integrand := FormArgument None |}) 1 = Ok r)).
Proof.
  apply (degree_nonneg int_of_literal 1
           (Power SpatialCoordinate (ScalarValue (PyInt 3)))
           (OfIntegral {| integrand := FormArgument None |}));
    [lia | reflexivity | reflexivity].
Defined.

(** C2 as stated fails: a power with the exponent [-1] gets the degree
    [-1] under the sum rule set, a negative default degree is returned as
    it is, and under the max rule set a compound node over form arguments
    of unspecified degree gets the absent value. *)
Lemma degree_nonneg_counterexample :
  SumDegreeEstimator.visit int_of_literal 1
    (Power SpatialCoordinate (ScalarValue (PyInt (-1)))) = Ok (-1) /\
  estimate_total_polynomial_degree int_of_literal
    (OfExpr (FormArgument None)) (-1) = Ok (-1) /\
  MaxDegreeEstimator.visit 1
    (Operator [FormArgument None; FormArgument None]) = Ok None.
Proof. repeat split. Qed.

(** ** The max estimator on elements of unspecified degree *)

(** C3: on a form argument whose element has no degree the max driving
    function returns the absent value, where the sum driving function
    returns the default degree. *)
Theorem max_degree_unresolved :
  estimate_max_polynomial_degree (OfExpr (FormArgument None)) 1 = Ok None /\
  estimate_max_polynomial_degree
    (OfForm {| integrals :=
                 [ {| integrand := Operator [FormArgument None; FormArgument None] |} ] |})
    1 = Ok None /\
  estimate_total_polynomial_degree int_of_literal (OfExpr (FormArgument None)) 1
    = Ok 1.
Proof. repeat split. Qed.

(** ** The maximum over integrals *)

Lemma leb_refl (x : option Z) : Py.leb x x = true.
Proof. destruct x; simpl; [apply Z.leb_refl|reflexivity]. Qed.

Lemma leb_trans (x y z : option Z) :
  Py.leb x y = true -> Py.leb y z = true -> Py.leb x z = true.
Proof.
  destruct x, y, z; simpl; try easy.
  rewrite !Z.leb_le. lia.
Qed.

Lemma leb_max2_l (x y : option Z) : Py.leb x (Py.max2 x y) = true.
Proof.
  destruct x, y; simpl; try reflexivity; apply Z.leb_le; lia.
Qed.

Lemma leb_max2_r (x y : option Z) : Py.leb y (Py.max2 x y) = true.
Proof.
  destruct x, y; simpl; try reflexivity; apply Z.leb_le; lia.
Qed.

Lemma max2_cases (x y : option Z) : Py.max2 x y = x \/ Py.max2 x y = y.
Proof.
  destruct x as [a|], y as [b|]; simpl; auto.
  destruct (Z.max_spec a b) as [[_ ->]|[_ ->]]; auto.
Qed.

Lemma fold_max2_lower (l : list (option Z)) (x : option Z) :
  Py.leb x (fold_left Py.max2 l x) = true.
Proof.
  revert x. induction l as [|y l IH]; intros x; simpl; [apply leb_refl|].
  eapply leb_trans; [apply leb_max2_l | apply IH].
Qed.

Lemma fold_max2_upper (l : list (option Z)) (x d : option Z) :
  In d l -> Py.leb d (fold_left Py.max2 l x) = true.
Proof.
  revert x. induction l as [|y l IH]; intros x; simpl; [tauto|].
  intros [->|Hd]; [|now apply IH].
  eapply leb_trans; [apply leb_max2_r | apply fold_max2_lower].
Qed.

Lemma fold_max2_attained (l : list (option Z)) (x : option Z) :
  fold_left Py.max2 l x = x \/ In (fold_left Py.max2 l x) l.
Proof.
  revert x. induction l as [|y l IH]; intros x; simpl; [now left|].
  destruct (IH (Py.max2 x y)) as [H|H]; [|now right; right].
  rewrite H. destruct (max2_cases x y) as [-> | ->]; auto.
Qed.

Lemma max_int_spec (ds : list Z) :
  ds <> [] ->
  exists m, Py.max_int ds = Ok m /\ In m ds /\ forall d, In d ds -> d <= m.
Proof.
  destruct ds as [|x l]; [congruence|]. intros _.
  exists (fold_left Z.max l x). repeat split.
  - destruct (fold_max_attained l x) as [->|H]; simpl; auto.
  - intros d [<-|Hd]; [apply fold_max_lower | now apply fold_max_upper].
Qed.

Lemma max_spec (ds : list (option Z)) :
  ds <> [] ->
  exists m, Py.max ds = Ok m /\ In m ds /\
            forall d, In d ds -> Py.leb d m = true.
Proof.
  destruct ds as [|x l]; [congruence|]. intros _.
  exists (fold_left Py.max2 l x). repeat split.
  - destruct (fold_max2_attained l x) as [->|H]; simpl; auto.
  - intros d [<-|Hd]; [apply fold_max2_lower | now apply fold_max2_upper].
Qed.

Lemma map_exc_length {A B : Type} (f : A -> Exc B) (l : list A) (rs : list B) :
  map_exc f l = Ok rs -> length rs = length l.
Proof.
  revert rs. induction l as [|x l IH]; simpl; intros rs.
  - now intros [= <-].
  - destruct (f x); simpl; [|discriminate].
    destruct (map_exc f l) as [rs'|]; simpl; [|discriminate].
    intros [= <-]. simpl. now rewrite (IH rs' eq_refl).
Qed.

(** C4: both driving functions fail on a form with no integrals; on a
    form with at least one integral they return the maximum of the
    degrees of the integrands; on a single integral they return the degree
    of its integrand. *)
Theorem driving_functions (py_int : Expr -> Exc Z) (dflt : Z)
  (i : Integral) (rest : list Integral) (single : Integral)
  (ds : list Z) (ms : list (option Z)) :
  map_exc (fun integral => SumDegreeEstimator.visit py_int dflt (integrand integral))
    (i :: rest) = Ok ds ->
  map_exc (fun integral => MaxDegreeEstimator.visit dflt (integrand integral))
    (i :: rest) = Ok ms ->
  estimate_total_polynomial_degree py_int (OfForm {| integrals := [] |}) dflt
    = Raise UFLException /\
  estimate_max_polynomial_degree (OfForm {| integrals := [] |}) dflt
    = Raise UFLException /\
  (exists m,
     estimate_total_polynomial_degree py_int
       (OfForm {| integrals := i :: rest |}) dflt = Ok m /\
     In m ds /\ forall d, In d ds -> d <= m) /\
  (exists m,
     estimate_max_polynomial_degree
       (OfForm {| integrals := i :: rest |}) dflt = Ok m /\
     In m ms /\ forall d, In d ms -> Py.leb d m = true) /\
  estimate_total_polynomial_degree py_int (OfIntegral single) dflt
    = SumDegreeEstimator.visit py_int dflt (integrand single) /\
  estimate_max_polynomial_degree (OfIntegral single) dflt
    = MaxDegreeEstimator.visit dflt (integrand single).
Proof.
  intros Hds Hms.
  assert (Hne : ds <> []).
  { intros ->. apply map_exc_length in Hds. discriminate. }
  assert (Hnm : ms <> []).
  { intros ->. apply map_exc_length in Hms. discriminate. }
  split; [reflexivity|]. split; [reflexivity|].
  split; [|split; [|split]].
  - destruct (max_int_spec ds Hne) as (m & Hm & Hin & Hle).
    exists m. split; [|auto].
    unfold estimate_total_polynomial_degree. cbn [integrals truthy ufl_assert bind].
    now rewrite Hds.
  - destruct (max_spec ms Hnm) as (m & Hm & Hin & Hle).
    exists m. split; [|auto].
    unfold estimate_max_polynomial_degree. cbn [integrals truthy ufl_assert bind].
    now rewrite Hms.
  - unfold estimate_total_polynomial_degree.
    now destruct (SumDegreeEstimator.visit py_int dflt (integrand single)).
  - unfold estimate_max_polynomial_degree.
    now destruct (MaxDegreeEstimator.visit dflt (integrand single)).
Qed.

Lemma driving_functions_witness :
  estimate_total_polynomial_degree int_of_literal (OfForm {| integrals := [] |}) 1
    = Raise UFLException /\
  estimate_max_polynomial_degree (OfForm {| integrals := [] |}) 1
    = Raise UFLException /\
  (exists m,
     estimate_total_polynomial_degree int_of_literal
       (OfForm {| integrals :=
                    [ {| integrand := Power SpatialCoordinate (ScalarValue (PyInt 2)) |};
                      {| integrand := FormArgument (Some 5%N) |} ] |}) 1 = Ok m /\
     In m [2; 5] /\ forall d, In d [2; 5] -> d <= m) /\
  (exists m,
     estimate_max_polynomial_degree
       (OfForm {| integrals :=
                    [ {| integrand := Power SpatialCoordinate (ScalarValue (PyInt 2)) |};
                      {| integrand := FormArgument (Some 5%N) |} ] |}) 1 = Ok m /\
     In m [Some 0; Some 5] /\ forall d, In d [Some 0; Some 5] -> Py.leb d m = true) /\
  estimate_total_polynomial_degree int_of_literal
    (OfIntegral {| integrand := SpatialCoordinate |}) 1
    = SumDegreeEstimator.visit int_of_literal 1 SpatialCoordinate /\
  estimate_max_polynomial_degree
    (OfIntegral {| integrand := SpatialCoordinate |}) 1
    = MaxDegreeEstimator.visit 1 SpatialCoordinate.
Proof.
  apply (driving_functions int_of_literal 1
           {| integrand := Power SpatialCoordinate (ScalarValue (PyInt 2)) |}
           [ {| integrand := FormArgument (Some 5%N) |} ]
           {| integrand := SpatialCoordinate |}
           [2; 5] [Some 0; Some 5]); reflexivity.
Defined.

(** ** Constant folding in the math-function constructors *)

(** C7, as the code has it: on an operand that is a literal scalar value
    or the zero value every constructor evaluates the Python function at
    the operand's value (at 0 for the zero value) and returns the result
    wrapped as a literal or zero node, never a symbolic node, or raises
    what the Python function raises; on every other operand it builds the
    symbolic math-function node. *)
Theorem mathfunction_folds (as_ufl_value : PyNum -> Expr)
  (libm : MathFn -> spec_float -> spec_float) (fn : MathFn) (f : PyObj) :
  (forall v, is_literal (as_ufl_value v) = true) ->
  (forall v, Operators.as_ufl as_ufl_value f = ScalarValue v ->
     Operators.constructor as_ufl_value libm fn f =
       (r <- Operators.math_fun libm fn v ;; Ok (as_ufl_value r))) /\
  (Operators.as_ufl as_ufl_value f = Zero ->
     Operators.constructor as_ufl_value libm fn f =
       (r <- Operators.math_fun libm fn (PyInt 0) ;; Ok (as_ufl_value r))) /\
  (is_literal (Operators.as_ufl as_ufl_value f) = true ->
     forall n, Operators.constructor as_ufl_value libm fn f = Ok n ->
               is_literal n = true) /\
  (is_literal (Operators.as_ufl as_ufl_value f) = false ->
     Operators.constructor as_ufl_value libm fn f =
       Ok (MathFunction fn (Operators.as_ufl as_ufl_value f))).
Proof.
  intros Hlit.
  assert (Hc : Operators.constructor as_ufl_value libm fn f =
               Operators._mathfunction as_ufl_value f (MathFunction fn)
                 (Operators.math_fun libm fn)).
  { destruct fn; reflexivity. }
  rewrite Hc. unfold Operators._mathfunction.
  destruct (Operators.as_ufl as_ufl_value f) as
    [ | v | | | d | ops | a b | ops | a b | a b | fn' a | a b ];
    (split; [intros v' Hv' | split; [intros Hz | split; [intros Hl n | intros Hl]]]);
    try discriminate; try reflexivity.
  - now injection Hv' as ->.
  - destruct (Operators.math_fun libm fn v); simpl; [|discriminate].
    intros [= <-]. apply Hlit.
  - destruct (Operators.math_fun libm fn (PyInt 0)); simpl; [|discriminate].
    intros [= <-]. apply Hlit.
Qed.

Lemma mathfunction_folds_witness :
  (forall v, Operators.as_ufl ScalarValue (OfNum (PyInt 4)) = ScalarValue v ->
     Operators.constructor ScalarValue no_libm Sqrt (OfNum (PyInt 4)) =
       (r <- Operators.math_fun no_libm Sqrt v ;; Ok (ScalarValue r))) /\
  (Operators.as_ufl ScalarValue (OfNum (PyInt 4)) = Zero ->
     Operators.constructor ScalarValue no_libm Sqrt (OfNum (PyInt 4)) =
       (r <- Operators.math_fun no_libm Sqrt (PyInt 0) ;; Ok (ScalarValue r))) /\
  (is_literal (Operators.as_ufl ScalarValue (OfNum (PyInt 4))) = true ->
     forall n, Operators.constructor ScalarValue no_libm Sqrt (OfNum (PyInt 4)) = Ok n ->
               is_literal n = true) /\
  (is_literal (Operators.as_ufl ScalarValue (OfNum (PyInt 4))) = false ->
     Operators.constructor ScalarValue no_libm Sqrt (OfNum (PyInt 4)) =
       Ok (MathFunction Sqrt (Operators.as_ufl ScalarValue (OfNum (PyInt 4))))).
Proof.
  apply (mathfunction_folds ScalarValue no_libm Sqrt (OfNum (PyInt 4))).
  intros v. reflexivity.
Defined.

(** C7 as stated fails: the logarithm of the zero value and of the
    literal [-1], and the square root of the literal [-1], raise, so the
    constructor returns no node. *)
Lemma mathfunction_folds_counterexample :
  Operators.ln ScalarValue no_libm (OfNode Zero) = Raise ValueError /\
  Operators.ln ScalarValue no_libm (OfNode (ScalarValue (PyInt (-1))))
    = Raise ValueError /\
  Operators.sqrt ScalarValue (OfNode (ScalarValue (PyInt (-1))))
    = Raise ValueError.
Proof. repeat split. Qed.

(** The square root of the literal [4] folds to the literal [2.0], and
    that of a coordinate stays symbolic. *)
Example sqrt_folds :
  Operators.sqrt ScalarValue (OfNum (PyInt 4))
    = Ok (ScalarValue (PyFloat (S754_finite false 4503599627370496 (-51)))) /\
  Operators.sqrt ScalarValue (OfNode SpatialCoordinate)
    = Ok (MathFunction Sqrt SpatialCoordinate).
Proof. split; reflexivity. Qed.

(** The logarithm of an integer too large for a double folds to a float
    literal, where its square root overflows; the logarithm of a negative
    one is a domain error. *)
Example ln_of_long_folds :
  (exists r, Operators.ln ScalarValue no_libm (OfNum (PyInt (10 ^ 400)))
             = Ok (ScalarValue (PyFloat r))) /\
  Operators.sqrt ScalarValue (OfNum (PyInt (10 ^ 400))) = Raise OverflowError /\
  Operators.ln ScalarValue no_libm (OfNum (PyInt (- 10 ^ 400)))
    = Raise ValueError /\
  Math.long_frexp (2 ^ 64) = (Math.one_half, 65) /\
  Math.long_frexp (2 ^ 64 - 1) = (Math.one_half, 65).
Proof.
  split; [eexists; vm_compute; reflexivity|].
  repeat split; vm_compute; reflexivity.
Qed.

(** ** Each node is evaluated once *)

Section Once.
Context {L R : Type}.
Variable g : list (Traversal.Node L).
Variable rule : Traversal.Node L -> list R -> R.

Lemma wf_from_lookup (k i j : nat) (nodes : list (Traversal.Node L))
  (node : Traversal.Node L) :
  Traversal.wf_from k nodes = true ->
  nodes !! i = Some node -> In j (Traversal.args node) -> (j < k + i)%nat.
Proof.
  revert k i. induction nodes as [|x nodes IH]; intros k i; [easy|].
  simpl. intros [Hx Hrest]%andb_prop. destruct i as [|i]; simpl.
  - intros [= ->] Hj. rewrite forallb_forall in Hx.
    specialize (Hx j Hj). apply Nat.ltb_lt in Hx. lia.
  - intros Hi Hj. specialize (IH (S k) i Hrest Hi Hj). lia.
Qed.

Hypothesis g_wf : Traversal.wf g = true.

Lemma operand_below (i j : nat) (node : Traversal.Node L) :
  g !! i = Some node -> In j (Traversal.args node) -> (j < i)%nat.
Proof. intros Hi Hj. exact (wf_from_lookup 0 i j g node g_wf Hi Hj). Qed.

Lemma reachable_le (n i : nat) : Traversal.reachable g n i -> (i <= n)%nat.
Proof.
  induction 1 as [n|n j i node Hn Hj _ IH]; [lia|].
  pose proof (operand_below n j node Hn Hj). lia.
Qed.

Lemma extends_refl (st : Traversal.State R) : Traversal.extends st st.
Proof. intros i _. reflexivity. Qed.

Lemma extends_trans (st1 st2 st3 : Traversal.State R) :
  Traversal.extends st1 st2 -> Traversal.extends st2 st3 -> Traversal.extends st1 st3.
Proof.
  intros H12 H23 i Hi. rewrite <- (H12 i Hi). apply H23.
  now rewrite (H12 i Hi).
Qed.

Lemma visit_all_ok (visit : nat -> Traversal.State R -> option (R * Traversal.State R))
  (l : list nat) :
  (forall j, In j l -> Traversal.visit_ok g visit j) ->
  forall st, Traversal.consistent g st ->
    exists rs st',
      Traversal.visit_all visit l st = Some (rs, st') /\
      Traversal.consistent g st' /\ Traversal.extends st st' /\
      (forall j, In j l -> is_Some (Traversal.cache st' !! j)) /\
      (forall i, is_Some (Traversal.cache st' !! i) ->
                 is_Some (Traversal.cache st !! i) \/
                 exists j, In j l /\ Traversal.reachable g j i).
Proof.
  induction l as [|m l IH]; intros Hl st Hst; simpl.
  - exists [], st. repeat split; try apply Hst; auto using extends_refl.
    intros j [].
  - destruct (Hl m (or_introl eq_refl) st Hst)
      as (r & st1 & -> & Hst1 & Hex1 & Hm & Hnew1).
    destruct (IH (fun j Hj => Hl j (or_intror Hj)) st1 Hst1)
      as (rs & st2 & -> & Hst2 & Hex2 & Hall & Hnew2).
    exists (r :: rs), st2. split; [reflexivity|].
    split; [exact Hst2|]. split; [eauto using extends_trans|]. split.
    + intros j [<-|Hj]; [|auto]. rewrite (Hex2 m); rewrite Hm; eauto.
    + intros i Hi. destruct (Hnew2 i Hi) as [H1|(j & Hj & Hreach)].
      * destruct (Hnew1 i H1) as [H0|Hreach]; [now left|].
        right. exists m. auto.
      * right. exists j. auto.
Qed.

Lemma visit_ok_fuel (fuel n : nat) :
  (n < fuel)%nat -> (n < length g)%nat ->
  Traversal.visit_ok g (Traversal.visit g rule fuel) n.
Proof.
  revert n. induction fuel as [|fuel IH]; intros n Hfuel Hn st Hst; [lia|].
  simpl. destruct (Traversal.cache st !! n) as [r|] eqn:Hhit.
  { exists r, st. repeat split; try apply Hst; auto using extends_refl. }
  destruct (lookup_lt_is_Some_2 g n Hn) as [node Hnode]. rewrite Hnode.
  assert (Hops : forall j, In j (Traversal.args node) ->
                           Traversal.visit_ok g (Traversal.visit g rule fuel) j).
  { intros j Hj. pose proof (operand_below n j node Hnode Hj).
    apply IH; lia. }
  destruct (visit_all_ok _ _ Hops st Hst)
    as (rs & st' & -> & [Hcount Hclosed] & Hex & Hall & Hnew).
  assert (Hfresh : Traversal.cache st' !! n = None).
  { destruct (Traversal.cache st' !! n) as [x|] eqn:E; [|reflexivity].
    destruct (Hnew n) as [H0|(j & Hj & Hreach)]; [rewrite E; eauto| |].
    - rewrite Hhit in H0. now destruct H0.
    - pose proof (operand_below n j node Hnode Hj).
      pose proof (reachable_le j n Hreach). lia. }
  eexists _, _. split; [reflexivity|].
  cbn [Traversal.cache Traversal.calls].
  split; [split|split; [|split]]; cbn [Traversal.cache Traversal.calls].
  - intros i. cbn [Traversal.invocations]. destruct (Nat.eqb_spec i n) as [->|Hne].
    + rewrite lookup_insert_eq, Hcount, Hfresh. reflexivity.
    + rewrite lookup_insert_ne by congruence. apply Hcount.
  - intros i node' j Hi Hnode' Hj.
    destruct (decide (n = j)) as [->|Hnj]; [rewrite lookup_insert_eq; eauto|].
    rewrite lookup_insert_ne by exact Hnj.
    destruct (decide (n = i)) as [->|Hni].
    + rewrite Hnode in Hnode'. injection Hnode' as <-. now apply Hall.
    + rewrite lookup_insert_ne in Hi by exact Hni. eauto.
  - intros i Hi. cbn [Traversal.cache].
    destruct (decide (n = i)) as [->|Hni].
    + rewrite Hhit in Hi. now destruct Hi.
    + rewrite lookup_insert_ne by exact Hni. now apply Hex.
  - apply lookup_insert_eq.
  - intros i. destruct (decide (n = i)) as [->|Hni].
    + intros _. right. constructor.
    + rewrite lookup_insert_ne by exact Hni. intros Hi.
      destruct (Hnew i Hi) as [H0|(j & Hj & Hreach)]; [now left|].
      right. econstructor; eauto.
Qed.

Lemma consistent_initial :
  Traversal.consistent g (Traversal.initial : Traversal.State R).
Proof.
  split.
  - intros i. simpl. now rewrite lookup_empty.
  - intros i node j [x Hx]. simpl in Hx. now rewrite lookup_empty in Hx.
Qed.

Lemma cached_below (st : Traversal.State R) (n i : nat) :
  Traversal.consistent g st -> is_Some (Traversal.cache st !! n) ->
  Traversal.reachable g n i -> is_Some (Traversal.cache st !! i).
Proof.
  intros [_ Hclosed] Hn Hreach.
  induction Hreach as [n|n j i node Hnode Hj _ IH]; [exact Hn|].
  apply IH. eapply Hclosed; eauto.
Qed.

(** C10: one [evaluate] call returns a result, and by its end the rule
    has been invoked exactly once for every node below the root, however
    many parents refer to it, and for no other node; from then on a
    reference to such a node returns the cached result and leaves the
    record of invocations as it is. *)
Theorem evaluate_once (root : nat) :
  (root < length g)%nat ->
  exists r st,
    Traversal.evaluate g rule root = Some (r, st) /\
    Traversal.cache st !! root = Some r /\
    (forall i, Traversal.reachable g root i ->
               Traversal.invocations i (Traversal.calls st) = 1%nat) /\
    (forall i, ~ Traversal.reachable g root i ->
               Traversal.invocations i (Traversal.calls st) = 0%nat) /\
    (forall i, Traversal.reachable g root i ->
       exists ri, Traversal.cache st !! i = Some ri /\
                  forall fuel, Traversal.visit g rule (S fuel) i st = Some (ri, st)).
Proof.
  intros Hroot.
  destruct (visit_ok_fuel (length g) root Hroot Hroot Traversal.initial
              consistent_initial)
    as (r & st & Hev & Hst & _ & Hr & Hnew).
  exists r, st. split; [exact Hev|]. split; [exact Hr|].
  assert (Hin : forall i, Traversal.reachable g root i ->
                          is_Some (Traversal.cache st !! i)).
  { intros i. apply cached_below; [exact Hst|]. rewrite Hr. eauto. }
  split; [|split].
  - intros i Hi. destruct Hst as [Hcount _]. rewrite Hcount.
    destruct (Hin i Hi) as [x ->]. reflexivity.
  - intros i Hi. destruct Hst as [Hcount _]. rewrite Hcount.
    destruct (Traversal.cache st !! i) eqn:E; [|reflexivity].
    destruct (Hnew i) as [H0|H1]; [rewrite E; eauto| |contradiction].
    simpl in H0. rewrite lookup_empty in H0. now destruct H0.
  - intros i Hi. destruct (Hin i Hi) as [ri Hri].
    exists ri. split; [exact Hri|]. intros fuel. simpl. now rewrite Hri.
Qed.

End Once.

Lemma evaluate_once_witness :
  exists r st,
    Traversal.evaluate shared_graph counting_rule 2 = Some (r, st) /\
    Traversal.cache st !! 2%nat = Some r /\
    (forall i, Traversal.reachable shared_graph 2 i ->
               Traversal.invocations i (Traversal.calls st) = 1%nat) /\
    (forall i, ~ Traversal.reachable shared_graph 2 i ->
               Traversal.invocations i (Traversal.calls st) = 0%nat) /\
    (forall i, Traversal.reachable shared_graph 2 i ->
       exists ri, Traversal.cache st !! i = Some ri /\
                  forall fuel,
                    Traversal.visit shared_graph counting_rule (S fuel) i st
                    = Some (ri, st)).
Proof.
  apply (evaluate_once shared_graph counting_rule); [reflexivity | simpl; lia].
Defined.

(** On the shared graph the rule is invoked three times, once per node. *)
Example evaluate_shared_graph :
  option_map (fun '(r, st) => (r, Traversal.calls st))
    (Traversal.evaluate shared_graph counting_rule 2)
  = Some (5, [2; 1; 0]%nat).
Proof. vm_compute. reflexivity. Qed.

(** * Further properties of the estimators *)

(** ** Lists of operand results *)

Lemma map_exc_ext {A B : Type} (f g : A -> Exc B) (l : list A) :
  Forall (fun x => f x = g x) l -> map_exc f l = map_exc g l.
Proof.
  induction 1 as [|x l Hx _ IH]; simpl; [reflexivity|]. now rewrite Hx, IH.
Qed.

Lemma map_exc_const {A B : Type} (f : A -> Exc B) (c : B) (l : list A) :
  Forall (fun x => f x = Ok c) l -> map_exc f l = Ok (map (fun _ => c) l).
Proof.
  induction 1 as [|x l Hx _ IH]; simpl; [reflexivity|]. now rewrite Hx, IH.
Qed.

Lemma Forall_bool2 {A : Type} (p q : A -> bool) (P : A -> Prop) (l : list A) :
  Forall (fun x => p x = true -> q x = true -> P x) l ->
  forallb p l = true -> forallb q l = true -> Forall P l.
Proof.
  induction 1 as [|x l Hx _ IH]; simpl; [constructor|].
  intros [Hp Hpl]%andb_prop [Hq Hql]%andb_prop. constructor; auto.
Qed.

Lemma Forall_bool1 {A : Type} (p : A -> bool) (P : A -> Prop) (l : list A) :
  Forall (fun x => p x = true -> P x) l ->
  forallb p l = true -> Forall P l.
Proof.
  induction 1 as [|x l Hx _ IH]; simpl; [constructor|].
  intros [Hp Hpl]%andb_prop. constructor; auto.
Qed.

Lemma fold_max_zeros {A : Type} (l : list A) :
  fold_left Z.max (map (fun _ => 0) l) 0 = 0.
Proof. induction l as [|x l IH]; simpl; [reflexivity | exact IH]. Qed.

Lemma sum_zeros {A : Type} (l : list A) : Py.sum (map (fun _ => 0) l) = 0.
Proof.
  induction l as [|x l IH]; [reflexivity|].
  change (Py.sum (0 :: map (fun _ => 0) l) = 0). now rewrite sum_cons, IH.
Qed.

(** ** Constant expressions *)

Lemma sum_visit_constant (py_int : Expr -> Exc Z) (dflt : Z) (e : Expr) :
  is_constant e = true ->
  operators_nonempty e = true ->
  SumDegreeEstimator.visit py_int dflt e = Ok 0.
Proof.
  unfold SumDegreeEstimator.visit.
  induction e as [ | v | | | d | ops IH | f i IHf IHi | ops IH
                 | a b IHa IHb | a b IHa IHb | fn a IHa | nu x IHnu IHx ]
    using Expr_ind;
    intros Hc Hwf; rewrite visit_eq; simpl operands; simpl in Hc, Hwf;
    try discriminate; try reflexivity.
  - apply andb_prop in Hwf as [Hne Hwf].
    rewrite (map_exc_const _ 0 ops (Forall_bool2 _ _ _ _ IH Hc Hwf)).
    destruct ops as [|x ops]; [discriminate|]. simpl.
    unfold SumDegreeEstimator.expr. simpl. now rewrite fold_max_zeros.
  - apply andb_prop in Hc as [Hf Hi]. apply andb_prop in Hwf as [Hf' Hi'].
    simpl map_exc. now rewrite (IHf Hf Hf'), (IHi Hi Hi').
  - rewrite (map_exc_const _ 0 ops (Forall_bool2 _ _ _ _ IH Hc Hwf)). simpl.
    unfold SumDegreeEstimator.product. now rewrite sum_zeros.
  - apply andb_prop in Hc as [Ha Hb]. apply andb_prop in Hwf as [Ha' Hb'].
    simpl map_exc. now rewrite (IHa Ha Ha'), (IHb Hb Hb').
  - apply andb_prop in Hc as [Ha Hb]. apply andb_prop in Hwf as [Ha' Hb'].
    simpl map_exc. rewrite (IHa Ha Ha'), (IHb Hb Hb'). simpl.
    destruct (py_int b); reflexivity.
  - simpl map_exc. now rewrite (IHa Hc Hwf).
  - apply andb_prop in Hc as [Hnu Hx]. apply andb_prop in Hwf as [Hnu' Hx'].
    simpl map_exc. now rewrite (IHnu Hnu Hnu'), (IHx Hx Hx').
Qed.

(** X1: an expression without spatial coordinates and form arguments has
    estimated total degree 0, whatever the default degree and whatever
    its power exponents convert to. *)
Theorem constant_degree (py_int : Expr -> Exc Z) (dflt : Z) (e : Expr) :
  is_constant e = true ->
  operators_nonempty e = true ->
  SumDegreeEstimator.visit py_int dflt e = Ok 0 /\
  estimate_total_polynomial_degree py_int (OfExpr e) dflt = Ok 0 /\
  estimate_total_polynomial_degree py_int
    (OfIntegral {| integrand := e |}) dflt = Ok 0.
Proof.
  intros Hc Hwf. pose proof (sum_visit_constant py_int dflt e Hc Hwf) as H.
  split; [exact H|]. split.
  - now rewrite estimate_total_of_expr.
  - unfold estimate_total_polynomial_degree. simpl. now rewrite H.
Qed.

Lemma constant_degree_witness :
  SumDegreeEstimator.visit int_of_literal 7
    (Power (MathFunction Sin (Operator [Terminal; ScalarValue (PyInt 2)]))
           (ScalarValue (PyInt 3))) = Ok 0 /\
  estimate_total_polynomial_degree int_of_literal
    (OfExpr (Power (MathFunction Sin (Operator [Terminal; ScalarValue (PyInt 2)]))
                   (ScalarValue (PyInt 3)))) 7 = Ok 0 /\
  estimate_total_polynomial_degree int_of_literal
    (OfIntegral
       {| integrand :=
            Power (MathFunction Sin (Operator [Terminal; ScalarValue (PyInt 2)]))
                  (ScalarValue (PyInt 3)) |}) 7 = Ok 0.
Proof.
  apply (constant_degree int_of_literal 7
           (Power (MathFunction Sin (Operator [Terminal; ScalarValue (PyInt 2)]))
                  (ScalarValue (PyInt 3)))); reflexivity.
Defined.

(** X2: multiplying or dividing by a constant expression leaves the
    estimated total degree unchanged. *)
Theorem constant_factor_degree (py_int : Expr -> Exc Z) (dflt : Z)
  (c e : Expr) (d : Z) :
  is_constant c = true ->
  operators_nonempty c = true ->
  SumDegreeEstimator.visit py_int dflt e = Ok d ->
  SumDegreeEstimator.visit py_int dflt (Product [c; e]) = Ok d /\
  SumDegreeEstimator.visit py_int dflt (Product [e; c]) = Ok d /\
  SumDegreeEstimator.visit py_int dflt (Division e c) = Ok d.
Proof.
  intros Hc Hwf He. pose proof (sum_visit_constant py_int dflt c Hc Hwf) as H0.
  unfold SumDegreeEstimator.visit in *.
  repeat split; rewrite visit_eq; simpl operands; simpl map_exc;
    rewrite ?H0, ?He; cbn;
    unfold SumDegreeEstimator.product, SumDegreeEstimator.division, Py.sum;
    cbn; f_equal; lia.
Qed.

Lemma constant_factor_degree_witness :
  SumDegreeEstimator.visit int_of_literal 1
    (Product [ScalarValue (PyInt 5); FormArgument (Some 3%N)]) = Ok 3 /\
  SumDegreeEstimator.visit int_of_literal 1
    (Product [FormArgument (Some 3%N); ScalarValue (PyInt 5)]) = Ok 3 /\
  SumDegreeEstimator.visit int_of_literal 1
    (Division (FormArgument (Some 3%N)) (ScalarValue (PyInt 5))) = Ok 3.
Proof.
  apply (constant_factor_degree int_of_literal 1 (ScalarValue (PyInt 5))
           (FormArgument (Some 3%N)) 3); reflexivity.
Defined.

(** ** The default degree under the sum rule set *)

Lemma sum_visit_default (py_int : Expr -> Exc Z) (d1 d2 : Z) (e : Expr) :
  degrees_specified e = true ->
  SumDegreeEstimator.visit py_int d1 e = SumDegreeEstimator.visit py_int d2 e.
Proof.
  unfold SumDegreeEstimator.visit.
  induction e as [ | v | | | d | ops IH | f i IHf IHi | ops IH
                 | a b IHa IHb | a b IHa IHb | fn a IHa | nu x IHnu IHx ]
    using Expr_ind;
    intros Hs;
    rewrite (visit_eq (SumDegreeEstimator.rules py_int d1)),
            (visit_eq (SumDegreeEstimator.rules py_int d2));
    simpl operands; simpl in Hs; try reflexivity.
  - destruct d; [reflexivity | discriminate].
  - now rewrite (map_exc_ext _ _ ops (Forall_bool1 _ _ _ IH Hs)).
  - apply andb_prop in Hs as [Hf Hi]. simpl map_exc.
    now rewrite (IHf Hf), (IHi Hi).
  - now rewrite (map_exc_ext _ _ ops (Forall_bool1 _ _ _ IH Hs)).
  - apply andb_prop in Hs as [Ha Hb]. simpl map_exc.
    now rewrite (IHa Ha), (IHb Hb).
  - apply andb_prop in Hs as [Ha Hb]. simpl map_exc.
    now rewrite (IHa Ha), (IHb Hb).
  - simpl map_exc. now rewrite (IHa Hs).
  - apply andb_prop in Hs as [Hnu Hx]. simpl map_exc.
    now rewrite (IHnu Hnu), (IHx Hx).
Qed.

(** X3: when every form argument is bound to an element that has a
    degree, the estimated total degree does not depend on the default
    degree. *)
Theorem default_degree_unused (py_int : Expr -> Exc Z) (d1 d2 : Z)
  (target : Target) :
  forallb degrees_specified (roots target) = true ->
  estimate_total_polynomial_degree py_int target d1 =
  estimate_total_polynomial_degree py_int target d2.
Proof.
  intros Hs. rewrite !estimate_total_roots.
  rewrite (map_exc_ext (SumDegreeEstimator.visit py_int d1)
             (SumDegreeEstimator.visit py_int d2) (roots target)); [reflexivity|].
  apply forallb_Forall_true in Hs.
  eapply Forall_impl; [exact Hs|]. intros x Hx. now apply sum_visit_default.
Qed.

Lemma default_degree_unused_witness :
  estimate_total_polynomial_degree int_of_literal
    (OfForm {| integrals :=
                 [ {| integrand := Product [FormArgument (Some 2%N); SpatialCoordinate] |};
                   {| integrand := FormArgument (Some 1%N) |} ] |}) 1 =
  estimate_total_polynomial_degree int_of_literal
    (OfForm {| integrals :=
                 [ {| integrand := Product [FormArgument (Some 2%N); SpatialCoordinate] |};
                   {| integrand := FormArgument (Some 1%N) |} ] |}) 9.
Proof.
  apply (default_degree_unused int_of_literal 1 9
           (OfForm {| integrals :=
                        [ {| integrand := Product [FormArgument (Some 2%N); SpatialCoordinate] |};
                          {| integrand := FormArgument (Some 1%N) |} ] |})).
  reflexivity.
Defined.

Lemma map_exc_Forall2 {A B : Type} (f g : A -> Exc B) (P : A -> Prop)
  (Q : B -> B -> Prop) (l : list A) (rs1 rs2 : list B) :
  Forall (fun x => P x -> forall r1 r2, f x = Ok r1 -> g x = Ok r2 -> Q r1 r2) l ->
  Forall P l ->
  map_exc f l = Ok rs1 -> map_exc g l = Ok rs2 ->
  Forall2 Q rs1 rs2.
Proof.
  intros HF. revert rs1 rs2.
  induction HF as [|x l Hx _ IH]; intros rs1 rs2 HP; simpl.
  - intros [= <-] [= <-]. constructor.
  - inversion HP as [|? ? Px Pl]; subst.
    destruct (f x) as [r1|] eqn:E1; simpl; [|discriminate].
    destruct (map_exc f l) as [l1|]; simpl; [|discriminate].
    destruct (g x) as [r2|] eqn:E2; simpl; [|discriminate].
    destruct (map_exc g l) as [l2|]; simpl; [|discriminate].
    intros [= <-] [= <-]. constructor; [now apply Hx | now apply IH].
Qed.

Lemma fold_max_mono (l1 l2 : list Z) (x1 x2 : Z) :
  Forall2 Z.le l1 l2 -> x1 <= x2 ->
  fold_left Z.max l1 x1 <= fold_left Z.max l2 x2.
Proof.
  intros H. revert x1 x2.
  induction H as [|y1 y2 l1 l2 Hy _ IH]; intros x1 x2 Hx; simpl; [exact Hx|].
  apply IH. lia.
Qed.

Lemma max_int_mono (l1 l2 : list Z) (m1 m2 : Z) :
  Forall2 Z.le l1 l2 ->
  Py.max_int l1 = Ok m1 -> Py.max_int l2 = Ok m2 -> m1 <= m2.
Proof.
  intros [|y1 y2 l1' l2' Hy H]; simpl; [discriminate|].
  intros [= <-] [= <-]. now apply fold_max_mono.
Qed.

Lemma sum_mono (l1 l2 : list Z) :
  Forall2 Z.le l1 l2 -> Py.sum l1 <= Py.sum l2.
Proof.
  induction 1 as [|y1 y2 l1 l2 Hy _ IH]; [reflexivity|].
  rewrite !sum_cons. lia.
Qed.

Section Monotone.
Variable py_int : Expr -> Exc Z.
Variables d1 d2 : Z.
Hypothesis d1_nonneg : 0 <= d1.
Hypothesis d1_le_d2 : d1 <= d2.

Lemma sum_visit_mono (e : Expr) :
  nonneg_exponents py_int e = true ->
  forall r1 r2,
    SumDegreeEstimator.visit py_int d1 e = Ok r1 ->
    SumDegreeEstimator.visit py_int d2 e = Ok r2 ->
    r1 <= r2.
Proof.
  assert (Hpos : forall x r, nonneg_exponents py_int x = true ->
                   Transformer.visit (SumDegreeEstimator.rules py_int d1) x = Ok r ->
                   0 <= r).
  { intros x r Hx Hr. exact (sum_visit_nonneg py_int d1 d1_nonneg x Hx r Hr). }
  unfold SumDegreeEstimator.visit.
  induction e as [ | v | | | d | ops IH | f i IHf IHi | ops IH
                 | a b IHa IHb | a b IHa IHb | fn a IHa | nu x IHnu IHx ]
    using Expr_ind;
    intros Hwf r1 r2;
    rewrite (visit_eq (SumDegreeEstimator.rules py_int d1)),
            (visit_eq (SumDegreeEstimator.rules py_int d2));
    simpl operands; simpl in Hwf;
    set (V1 := Transformer.visit (SumDegreeEstimator.rules py_int d1)) in *;
    set (V2 := Transformer.visit (SumDegreeEstimator.rules py_int d2)) in *.
  1-4: simpl; intros [= <-] [= <-]; lia.
  - simpl. intros [= <-] [= <-]. destruct d; lia.
  - apply forallb_Forall_true in Hwf.
    destruct (map_exc V1 ops) as [rs1|] eqn:E1; simpl; [|discriminate].
    destruct (map_exc V2 ops) as [rs2|] eqn:E2; simpl; [|discriminate].
    apply max_int_mono.
    exact (map_exc_Forall2 _ _ _ _ _ _ _ IH Hwf E1 E2).
  - apply andb_prop in Hwf as [Hf Hi]. simpl map_exc.
    destruct (V1 f) as [f1|] eqn:Ef1; simpl; [|discriminate].
    destruct (V1 i) as [i1|] eqn:Ei1; simpl; [|discriminate].
    destruct (V2 f) as [f2|] eqn:Ef2; simpl; [|discriminate].
    destruct (V2 i) as [i2|] eqn:Ei2; simpl; [|discriminate].
    intros [= <-] [= <-]. specialize (IHf Hf f1 f2 eq_refl eq_refl). lia.
  - apply forallb_Forall_true in Hwf.
    destruct (map_exc V1 ops) as [rs1|] eqn:E1; simpl; [|discriminate].
    destruct (map_exc V2 ops) as [rs2|] eqn:E2; simpl; [|discriminate].
    intros [= <-] [= <-]. apply sum_mono.
    exact (map_exc_Forall2 _ _ _ _ _ _ _ IH Hwf E1 E2).
  - apply andb_prop in Hwf as [Ha Hb]. simpl map_exc.
    destruct (V1 a) as [a1|] eqn:Ea1; simpl; [|discriminate].
    destruct (V1 b) as [b1|] eqn:Eb1; simpl; [|discriminate].
    destruct (V2 a) as [a2|] eqn:Ea2; simpl; [|discriminate].
    destruct (V2 b) as [b2|] eqn:Eb2; simpl; [|discriminate].
    intros [= <-] [= <-].
    specialize (IHa Ha a1 a2 eq_refl eq_refl).
    specialize (IHb Hb b1 b2 eq_refl eq_refl).
    apply sum_mono. repeat constructor; assumption.
  - apply andb_prop in Hwf as [[Hk Ha]%andb_prop Hb]. simpl map_exc.
    pose proof (Hpos a) as Pa.
    destruct (V1 a) as [a1|] eqn:Ea1; simpl; [|discriminate].
    destruct (V1 b) as [b1|] eqn:Eb1; simpl; [|discriminate].
    destruct (V2 a) as [a2|] eqn:Ea2; simpl; [|discriminate].
    destruct (V2 b) as [b2|] eqn:Eb2; simpl; [|discriminate].
    specialize (IHa Ha a1 a2 eq_refl eq_refl).
    specialize (Pa a1 Ha eq_refl).
    destruct (py_int b) as [k|]; intros [= <-] [= <-]; [|lia].
    apply Z.leb_le in Hk. nia.
  - simpl map_exc. pose proof (Hpos a) as Pa.
    destruct (V1 a) as [a1|] eqn:Ea1; simpl; [|discriminate].
    destruct (V2 a) as [a2|] eqn:Ea2; simpl; [|discriminate].
    specialize (IHa Hwf a1 a2 eq_refl eq_refl).
    specialize (Pa a1 Hwf eq_refl).
    destruct (Z.eqb_spec a1 0), (Z.eqb_spec a2 0); intros [= <-] [= <-]; lia.
  - apply andb_prop in Hwf as [Hnu Hx]. simpl map_exc.
    pose proof (Hpos x) as Px.
    destruct (V1 nu) as [n1|] eqn:En1; simpl; [|discriminate].
    destruct (V1 x) as [x1|] eqn:Ex1; simpl; [|discriminate].
    destruct (V2 nu) as [n2|] eqn:En2; simpl; [|discriminate].
    destruct (V2 x) as [x2|] eqn:Ex2; simpl; [|discriminate].
    specialize (IHx Hx x1 x2 eq_refl eq_refl).
    specialize (Px x1 Hx eq_refl).
    destruct (Z.eqb_spec x1 0), (Z.eqb_spec x2 0); intros [= <-] [= <-]; lia.
Qed.

End Monotone.

(** X4: the estimated total degree grows with the default degree: for
    non-negative default degrees [d1 <= d2], and power exponents that do
    not convert to negative integers, the estimate under [d1] is at most
    the estimate under [d2]. *)
Theorem default_degree_monotone (py_int : Expr -> Exc Z) (d1 d2 : Z)
  (target : Target) (r1 r2 : Z) :
  0 <= d1 -> d1 <= d2 ->
  forallb (nonneg_exponents py_int) (roots target) = true ->
  estimate_total_polynomial_degree py_int target d1 = Ok r1 ->
  estimate_total_polynomial_degree py_int target d2 = Ok r2 ->
  r1 <= r2.
Proof.
  intros Hd1 Hd12 Hwf. rewrite !estimate_total_roots.
  destruct (match target with OfForm f => _ | _ => _ end); simpl; [|discriminate].
  destruct (map_exc (SumDegreeEstimator.visit py_int d1) (roots target))
    as [rs1|] eqn:E1; simpl; [|discriminate].
  destruct (map_exc (SumDegreeEstimator.visit py_int d2) (roots target))
    as [rs2|] eqn:E2; simpl; [|discriminate].
  apply max_int_mono.
  refine (map_exc_Forall2 _ _ _ _ _ _ _ _ (forallb_Forall_true _ _ Hwf) E1 E2).
  apply Forall_forall. intros x _ Hx s1 s2.
  now apply sum_visit_mono.
Qed.

Lemma default_degree_monotone_witness :
  estimate_total_polynomial_degree int_of_literal
    (OfExpr (Power (MathFunction Sin (FormArgument None)) (ScalarValue (PyInt 2))))
    0 = Ok 0 /\
  estimate_total_polynomial_degree int_of_literal
    (OfExpr (Power (MathFunction Sin (FormArgument None)) (ScalarValue (PyInt 2))))
    1 = Ok 6 /\
  0 <= 6.
Proof.
  split; [reflexivity|]. split; [reflexivity|].
  apply (default_degree_monotone int_of_literal 0 1
           (OfExpr (Power (MathFunction Sin (FormArgument None))
                          (ScalarValue (PyInt 2)))) 0 6);
    [lia | lia | reflexivity | reflexivity | reflexivity].
Defined.

(** ** The max estimate as a maximum over the expression *)

Lemma max2_None_r (x : option Z) : Py.max2 x None = x.
Proof. now destruct x. Qed.

Lemma max2_assoc (x y z : option Z) :
  Py.max2 x (Py.max2 y z) = Py.max2 (Py.max2 x y) z.
Proof. destruct x, y, z; simpl; try reflexivity. f_equal. lia. Qed.

Lemma fold_max2_maximum (l : list (option Z)) (x : option Z) :
  fold_left Py.max2 l x = Py.max2 x (maximum l).
Proof.
  revert x. induction l as [|y l IH]; intros x; simpl.
  - now rewrite max2_None_r.
  - rewrite IH. fold (maximum l). now rewrite max2_assoc.
Qed.

Lemma max_maximum (l : list (option Z)) :
  l <> [] -> Py.max l = Ok (maximum l).
Proof.
  destruct l as [|x l]; [congruence|]. intros _. simpl.
  now rewrite fold_max2_maximum.
Qed.

Lemma maximum_app (l1 l2 : list (option Z)) :
  maximum (l1 ++ l2) = Py.max2 (maximum l1) (maximum l2).
Proof.
  induction l1 as [|x l1 IH]; simpl; [reflexivity|].
  fold (maximum (l1 ++ l2)) (maximum l1). now rewrite IH, max2_assoc.
Qed.

Lemma maximum_concat (ls : list (list (option Z))) :
  maximum (concat ls) = maximum (map maximum ls).
Proof.
  induction ls as [|l ls IH]; simpl; [reflexivity|].
  rewrite maximum_app, IH. reflexivity.
Qed.

Lemma fold_max_app (l : list Z) (d x : Z) :
  fold_left Z.max (l ++ [d]) x = Z.max x (fold_right Z.max d l).
Proof.
  revert x. induction l as [|y l IH]; intros x; simpl; [reflexivity|].
  rewrite IH. lia.
Qed.

Lemma maximum_not_none (rs : list (option Z)) (d : Z) :
  maximum (rs ++ [Some d]) = Some (fold_right Z.max d (Py.not_none rs)).
Proof.
  induction rs as [|[y|] rs IH]; simpl; [reflexivity| |].
  - fold (maximum (rs ++ [Some d])). now rewrite IH.
  - fold (maximum (rs ++ [Some d])). now rewrite IH.
Qed.

Lemma product_maximum (dflt : Z) (v : Expr) (rs : list (option Z)) :
  MaxDegreeEstimator.product dflt v rs = Ok (maximum (rs ++ [Some dflt])).
Proof.
  unfold MaxDegreeEstimator.product. rewrite maximum_not_none.
  destruct (Py.not_none rs) as [|y l]; simpl; [reflexivity|].
  rewrite fold_max_app. reflexivity.
Qed.

Lemma map_exc_map_ok {A B : Type} (f : A -> Exc B) (g : A -> B) (l : list A) :
  Forall (fun x => f x = Ok (g x)) l -> map_exc f l = Ok (map g l).
Proof.
  induction 1 as [|x l Hx _ IH]; simpl; [reflexivity|]. now rewrite Hx, IH.
Qed.

Lemma concat_nonempty {A : Type} (ls : list (list A)) :
  ls <> [] -> Forall (fun l => l <> []) ls -> concat ls <> [].
Proof.
  intros Hne H. destruct H as [|l ls Hl _]; [congruence|].
  destruct l; [congruence|]. discriminate.
Qed.

Lemma max_visit_flat (dflt : Z) (e : Expr) :
  operators_nonempty e = true ->
  MaxDegreeEstimator.visit dflt e = Ok (maximum (contributions dflt e)) /\
  contributions dflt e <> [].
Proof.
  unfold MaxDegreeEstimator.visit.
  induction e as [ | v | | | d | ops IH | f i IHf IHi | ops IH
                 | a b IHa IHb | a b IHa IHb | fn a IHa | nu x IHnu IHx ]
    using Expr_ind;
    intros Hwf; rewrite visit_eq; simpl operands; simpl in Hwf.
  1-4: split; [reflexivity | discriminate].
  - split; [|discriminate]. simpl. now destruct d.
  - apply andb_prop in Hwf as [Hne Hwf].
    pose proof (Forall_bool1 _ _ _ IH Hwf) as Hall.
    rewrite (map_exc_map_ok _ (fun x => maximum (contributions dflt x)) ops).
    2: { eapply Forall_impl; [exact Hall|]. now intros x [Hx _]. }
    assert (Hc : concat (map (contributions dflt) ops) <> []).
    { apply concat_nonempty; [now destruct ops|].
      apply Forall_map. eapply Forall_impl; [exact Hall|]. now intros x [_ Hx]. }
    split; [|exact Hc]. cbn [bind Transformer.resolve kind MaxDegreeEstimator.rules].
    unfold MaxDegreeEstimator.expr.
    rewrite max_maximum by (now destruct ops).
    cbn [contributions]. now rewrite maximum_concat, map_map.
  - apply andb_prop in Hwf as [Hf Hi]. simpl map_exc.
    destruct (IHf Hf) as [-> Nf]. destruct (IHi Hi) as [-> Ni].
    split; [|cbn [contributions]; now destruct (contributions dflt f)].
    cbn [bind Transformer.resolve kind operands MaxDegreeEstimator.rules
         contributions].
    unfold MaxDegreeEstimator.expr. cbn [Py.max fold_left].
    now rewrite maximum_app.
  - pose proof (Forall_bool1 _ _ _ IH Hwf) as Hall.
    rewrite (map_exc_map_ok _ (fun x => maximum (contributions dflt x)) ops).
    2: { eapply Forall_impl; [exact Hall|]. now intros x [Hx _]. }
    split.
    + cbn [bind Transformer.resolve kind MaxDegreeEstimator.rules].
      rewrite product_maximum. cbn [contributions].
      now rewrite !maximum_app, maximum_concat, map_map.
    + cbn [contributions]. now destruct (concat _).
  - apply andb_prop in Hwf as [Ha Hb]. simpl map_exc.
    destruct (IHa Ha) as [-> Na]. destruct (IHb Hb) as [-> Nb].
    split; [|cbn [contributions]; now destruct (contributions dflt a)].
    cbn [bind Transformer.resolve kind operands MaxDegreeEstimator.rules
         contributions].
    unfold MaxDegreeEstimator.expr. cbn [Py.max fold_left].
    now rewrite maximum_app.
  - apply andb_prop in Hwf as [Ha Hb]. simpl map_exc.
    destruct (IHa Ha) as [-> Na]. destruct (IHb Hb) as [-> Nb].
    split; [|cbn [contributions]; now destruct (contributions dflt a)].
    cbn [bind Transformer.resolve kind operands MaxDegreeEstimator.rules
         contributions].
    unfold MaxDegreeEstimator.expr. cbn [Py.max fold_left].
    now rewrite maximum_app.
  - simpl map_exc. destruct (IHa Hwf) as [-> Na].
    split; [|exact Na].
    cbn [bind Transformer.resolve kind operands MaxDegreeEstimator.rules].
    reflexivity.
  - apply andb_prop in Hwf as [Hnu Hx]. simpl map_exc.
    destruct (IHnu Hnu) as [-> Nnu]. destruct (IHx Hx) as [-> Nx].
    split; [|cbn [contributions]; now destruct (contributions dflt nu)].
    cbn [bind Transformer.resolve kind operands MaxDegreeEstimator.rules
         contributions].
    unfold MaxDegreeEstimator.expr. cbn [Py.max fold_left].
    now rewrite maximum_app.
Qed.

(** X5: under the max rule set the estimate of an expression is the
    maximum, in Python 2's ordering, of what its leaves and products put
    in (0 for a terminal, the element's degree for a form argument, the
    default degree for every product), whatever the shape of the
    expression in between. *)
Theorem max_estimate_flat (dflt : Z) (e : Expr) :
  operators_nonempty e = true ->
  MaxDegreeEstimator.visit dflt e = Py.max (contributions dflt e) /\
  estimate_max_polynomial_degree (OfExpr e) dflt = Py.max (contributions dflt e).
Proof.
  intros Hwf. destruct (max_visit_flat dflt e Hwf) as [Hv Hne].
  rewrite estimate_max_of_expr, Hv, (max_maximum _ Hne). auto.
Qed.

Lemma max_estimate_flat_witness :
  MaxDegreeEstimator.visit 1
    (Operator [Power (FormArgument (Some 3%N)) (ScalarValue (PyInt 2));
               Product [FormArgument None; SpatialCoordinate]])
  = Py.max (contributions 1
      (Operator [Power (FormArgument (Some 3%N)) (ScalarValue (PyInt 2));
                 Product [FormArgument None; SpatialCoordinate]])) /\
  estimate_max_polynomial_degree
    (OfExpr (Operator [Power (FormArgument (Some 3%N)) (ScalarValue (PyInt 2));
                       Product [FormArgument None; SpatialCoordinate]])) 1
  = Py.max (contributions 1
      (Operator [Power (FormArgument (Some 3%N)) (ScalarValue (PyInt 2));
                 Product [FormArgument None; SpatialCoordinate]])).
Proof.
  apply (max_estimate_flat 1
           (Operator [Power (FormArgument (Some 3%N)) (ScalarValue (PyInt 2));
                      Product [FormArgument None; SpatialCoordinate]])).
  reflexivity.
Defined.

(** ** When the max estimate is absent *)

Lemma max2_None (x y : option Z) :
  Py.max2 x y = None <-> x = None /\ y = None.
Proof. destruct x, y; simpl; split; intros; try tauto; try easy. Qed.

Lemma maximum_None (l : list (option Z)) :
  maximum l = None <-> Forall (fun x => x = None) l.
Proof.
  induction l as [|x l IH]; simpl.
  - split; [constructor | reflexivity].
  - fold (maximum l). rewrite max2_None, IH. split.
    + intros [Hx Hl]. now constructor.
    + intros H. inversion H; subst. auto.
Qed.

Lemma Forall_forallb {A : Type} (p : A -> bool) (l : list A) :
  Forall (fun x => p x = true) l -> forallb p l = true.
Proof.
  induction 1 as [|x l Hx _ IH]; simpl; [reflexivity|]. now rewrite Hx, IH.
Qed.

Lemma Forall_iff_pointwise {A : Type} (P Q : A -> Prop) (l : list A) :
  Forall (fun x => P x <-> Q x) l -> (Forall P l <-> Forall Q l).
Proof.
  induction 1 as [|x l Hx _ IH]; [split; constructor|].
  split; intros H; inversion H; subst; constructor; tauto.
Qed.

Lemma maximum_contributions_None (dflt : Z) (e : Expr) :
  maximum (contributions dflt e) = None <-> unresolved e = true.
Proof.
  induction e as [ | v | | | d | ops IH | f i IHf IHi | ops IH
                 | a b IHa IHb | a b IHa IHb | fn a IHa | nu x IHnu IHx ]
    using Expr_ind; cbn [contributions unresolved].
  1-4: simpl; split; discriminate.
  - destruct d; simpl; split; auto; discriminate.
  - rewrite maximum_concat, map_map, maximum_None, Forall_map.
    rewrite (Forall_iff_pointwise _ _ _ IH). split.
    + apply Forall_forallb.
    + apply forallb_Forall_true.
  - rewrite maximum_app, max2_None, IHf, IHi. symmetry. apply andb_true_iff.
  - rewrite maximum_app, max2_None. simpl. split; [intros [_ H]|]; discriminate.
  - rewrite maximum_app, max2_None, IHa, IHb. symmetry. apply andb_true_iff.
  - rewrite maximum_app, max2_None, IHa, IHb. symmetry. apply andb_true_iff.
  - exact IHa.
  - rewrite maximum_app, max2_None, IHnu, IHx. symmetry. apply andb_true_iff.
Qed.

(** X6: the max driving function returns the absent value exactly when
    every expression it evaluates has only form arguments of unspecified
    degree at its leaves and contains no product; in every other case it
    returns an integer. *)
Theorem max_estimate_absent (dflt : Z) (target : Target) :
  has_integrand target = true ->
  forallb operators_nonempty (roots target) = true ->
  (estimate_max_polynomial_degree target dflt = Ok None <->
   forallb unresolved (roots target) = true) /\
  (forallb unresolved (roots target) = false ->
   exists k, estimate_max_polynomial_degree target dflt = Ok (Some k)).
Proof.
  intros Hint Hwf.
  assert (Hguard : match target with
                   | OfForm f => ufl_assert (truthy (integrals f))
                   | _ => Ok tt
                   end = Ok tt).
  { destruct target as [f| |]; try reflexivity. simpl in Hint. now rewrite Hint. }
  assert (Hne : roots target <> []).
  { destruct target as [[[|i l]]| |]; simpl in *; congruence. }
  assert (Hres : estimate_max_polynomial_degree target dflt =
                 Ok (maximum (map (fun x => maximum (contributions dflt x))
                                  (roots target)))).
  { rewrite estimate_max_roots, Hguard.
    rewrite (map_exc_map_ok _ (fun x => maximum (contributions dflt x))).
    - simpl. apply max_maximum. now destruct (roots target).
    - apply forallb_Forall_true in Hwf. eapply Forall_impl; [exact Hwf|].
      intros x Hx. now apply max_visit_flat. }
  assert (Hiff : maximum (map (fun x => maximum (contributions dflt x))
                              (roots target)) = None <->
                 forallb unresolved (roots target) = true).
  { rewrite maximum_None, Forall_map.
    rewrite (Forall_iff_pointwise _ (fun x => unresolved x = true)).
    - split; [apply Forall_forallb | apply forallb_Forall_true].
    - apply Forall_forall. intros x _. apply maximum_contributions_None. }
  rewrite Hres. split.
  - rewrite <- Hiff. split; [now intros [= ->] | now intros ->].
  - intros Hu.
    destruct (maximum (map _ (roots target))) as [k|]; [eauto|].
    rewrite (proj1 Hiff eq_refl) in Hu. discriminate.
Qed.

Lemma max_estimate_absent_witness :
  (estimate_max_polynomial_degree
     (OfExpr (Power (FormArgument None) (ScalarValue (PyInt 2)))) 1 = Ok None <->
   forallb unresolved
     (roots (OfExpr (Power (FormArgument None) (ScalarValue (PyInt 2))))) = true) /\
  (forallb unresolved
     (roots (OfExpr (Power (FormArgument None) (ScalarValue (PyInt 2))))) = false ->
   exists k,
     estimate_max_polynomial_degree
       (OfExpr (Power (FormArgument None) (ScalarValue (PyInt 2)))) 1 = Ok (Some k)).
Proof.
  apply (max_estimate_absent 1
           (OfExpr (Power (FormArgument None) (ScalarValue (PyInt 2)))));
    reflexivity.
Defined.

(** ** Repeated derivatives and integer powers *)

(** X7: under the sum rule set [n] spatial derivatives in a row take an
    operand of degree [d] to degree [max(d - n, 0)]. *)
Theorem repeated_derivative_degree (py_int : Expr -> Exc Z) (dflt : Z)
  (f i : Expr) (d di : Z) (n : nat) :
  SumDegreeEstimator.visit py_int dflt f = Ok d ->
  SumDegreeEstimator.visit py_int dflt i = Ok di ->
  0 <= d ->
  SumDegreeEstimator.visit py_int dflt
    (Nat.iter n (fun e => SpatialDerivative e i) f)
  = Ok (Z.max (d - Z.of_nat n) 0).
Proof.
  intros Hf Hi Hd. unfold SumDegreeEstimator.visit in *.
  induction n as [|n IH].
  - simpl. rewrite Hf. f_equal. lia.
  - rewrite Nat.iter_succ.
    rewrite (visit_binary _ (SpatialDerivative _ i) _ i _ di eq_refl IH Hi).
    simpl. f_equal. lia.
Qed.

Lemma repeated_derivative_degree_witness :
  SumDegreeEstimator.visit int_of_literal 1
    (Nat.iter 2 (fun e => SpatialDerivative e Terminal) (FormArgument (Some 3%N)))
  = Ok (Z.max (3 - Z.of_nat 2) 0).
Proof.
  apply (repeated_derivative_degree int_of_literal 1 (FormArgument (Some 3%N))
           Terminal 3 0 2); [reflexivity | reflexivity | lia].
Defined.

Lemma sum_repeat (d : Z) (n : nat) : Py.sum (repeat d n) = d * Z.of_nat n.
Proof.
  induction n as [|n IH]; [simpl; unfold Py.sum; simpl; lia|].
  change (repeat d (S n)) with (d :: repeat d n). rewrite sum_cons, IH. lia.
Qed.

Lemma map_exc_repeat {A B : Type} (f : A -> Exc B) (x : A) (r : B) (n : nat) :
  f x = Ok r -> map_exc f (repeat x n) = Ok (repeat r n).
Proof.
  intros Hx. induction n as [|n IH]; simpl; [reflexivity|]. now rewrite Hx, IH.
Qed.

(** X8: under the sum rule set a power whose exponent converts to the
    natural number [n] gets the same degree as the product of [n] copies
    of its base. *)
Theorem power_as_product (py_int : Expr -> Exc Z) (dflt : Z)
  (f g : Expr) (d b : Z) (n : nat) :
  SumDegreeEstimator.visit py_int dflt f = Ok d ->
  SumDegreeEstimator.visit py_int dflt g = Ok b ->
  py_int g = Ok (Z.of_nat n) ->
  SumDegreeEstimator.visit py_int dflt (Power f g) =
  SumDegreeEstimator.visit py_int dflt (Product (repeat f n)).
Proof.
  intros Hf Hg Hn. unfold SumDegreeEstimator.visit in *.
  rewrite (visit_binary _ (Power f g) f g d b eq_refl Hf Hg).
  rewrite (visit_eq _ (Product _)). simpl operands.
  rewrite (map_exc_repeat _ f d n Hf). simpl. rewrite Hn.
  unfold SumDegreeEstimator.product. now rewrite sum_repeat.
Qed.

Lemma power_as_product_witness :
  SumDegreeEstimator.visit int_of_literal 1
    (Power (FormArgument (Some 2%N)) (ScalarValue (PyInt 3))) =
  SumDegreeEstimator.visit int_of_literal 1
    (Product (repeat (FormArgument (Some 2%N)) 3)).
Proof.
  apply (power_as_product int_of_literal 1 (FormArgument (Some 2%N))
           (ScalarValue (PyInt 3)) 2 0 3); reflexivity.
Defined.

(** ** The order of operands and of integrals *)

Lemma map_exc_Permutation {A B : Type} (f : A -> Exc B) (l l' : list A) :
  Permutation l l' ->
  forall rs, map_exc f l = Ok rs ->
  exists rs', map_exc f l' = Ok rs' /\ Permutation rs rs'.
Proof.
  induction 1 as [|x l l' _ IH|x y l|l l' l'' _ IH1 _ IH2]; intros rs; simpl.
  - intros [= <-]. eauto.
  - destruct (f x) as [r|]; simpl; [|discriminate].
    destruct (map_exc f l) as [rs0|]; simpl; [|discriminate].
    intros [= <-]. destruct (IH rs0 eq_refl) as (rs' & -> & Hp).
    simpl. eauto using Permutation.
  - destruct (f y) as [ry|]; simpl; [|discriminate].
    destruct (f x) as [rx|]; simpl; [|discriminate].
    destruct (map_exc f l) as [rs0|]; simpl; [|discriminate].
    intros [= <-]. eexists. split; [reflexivity|]. constructor.
  - intros H1. destruct (IH1 rs H1) as (rs' & H2 & Hp1).
    destruct (IH2 rs' H2) as (rs'' & H3 & Hp2).
    exists rs''. split; [exact H3|]. now transitivity rs'.
Qed.

Lemma sum_Permutation (l l' : list Z) :
  Permutation l l' -> Py.sum l = Py.sum l'.
Proof.
  induction 1 as [|x l l' _ IH|x y l|l l' l'' _ IH1 _ IH2].
  - reflexivity.
  - now rewrite !sum_cons, IH.
  - rewrite !sum_cons. lia.
  - now rewrite IH1.
Qed.

Lemma max_int_Permutation (l l' : list Z) :
  Permutation l l' -> Py.max_int l = Py.max_int l'.
Proof.
  intros Hp. destruct l as [|x l].
  { apply Permutation_nil in Hp. now subst. }
  destruct l' as [|x' l'].
  { symmetry in Hp. apply Permutation_nil in Hp. discriminate. }
  destruct (max_int_spec (x :: l)) as (m & -> & Hin & Hle); [discriminate|].
  destruct (max_int_spec (x' :: l')) as (m' & -> & Hin' & Hle'); [discriminate|].
  f_equal. apply Z.le_antisymm.
  - apply Hle'. now apply (Permutation_in _ Hp).
  - apply Hle. symmetry in Hp. now apply (Permutation_in _ Hp).
Qed.

Lemma max2_comm (x y : option Z) : Py.max2 x y = Py.max2 y x.
Proof. destruct x, y; simpl; try reflexivity. f_equal. lia. Qed.

Lemma maximum_Permutation (l l' : list (option Z)) :
  Permutation l l' -> maximum l = maximum l'.
Proof.
  induction 1 as [|x l l' _ IH|x y l|l l' l'' _ IH1 _ IH2]; simpl.
  - reflexivity.
  - fold (maximum l) (maximum l'). now rewrite IH.
  - fold (maximum l). rewrite !max2_assoc. now rewrite (max2_comm y x).
  - now rewrite IH1.
Qed.

Lemma max_Permutation (l l' : list (option Z)) :
  Permutation l l' -> Py.max l = Py.max l'.
Proof.
  intros Hp. destruct l as [|x l].
  { apply Permutation_nil in Hp. now subst. }
  destruct l' as [|x' l'].
  { symmetry in Hp. apply Permutation_nil in Hp. discriminate. }
  rewrite !max_maximum by discriminate. f_equal. now apply maximum_Permutation.
Qed.

(** X9: in either rule set the estimate of a product, and of a generic
    compound, does not depend on the order of its operands. *)
Theorem operand_order_irrelevant (py_int : Expr -> Exc Z) (dflt : Z)
  (ops ops' : list Expr) (ds : list Z) (ms : list (option Z)) :
  Permutation ops ops' ->
  map_exc (SumDegreeEstimator.visit py_int dflt) ops = Ok ds ->
  map_exc (MaxDegreeEstimator.visit dflt) ops = Ok ms ->
  SumDegreeEstimator.visit py_int dflt (Product ops') =
    SumDegreeEstimator.visit py_int dflt (Product ops) /\
  SumDegreeEstimator.visit py_int dflt (Operator ops') =
    SumDegreeEstimator.visit py_int dflt (Operator ops) /\
  MaxDegreeEstimator.visit dflt (Product ops') =
    MaxDegreeEstimator.visit dflt (Product ops) /\
  MaxDegreeEstimator.visit dflt (Operator ops') =
    MaxDegreeEstimator.visit dflt (Operator ops).
Proof.
  intros Hp Hds Hms.
  destruct (map_exc_Permutation _ _ _ Hp ds Hds) as (ds' & Hds' & Pds).
  destruct (map_exc_Permutation _ _ _ Hp ms Hms) as (ms' & Hms' & Pms).
  unfold SumDegreeEstimator.visit, MaxDegreeEstimator.visit in *.
  rewrite !visit_eq. simpl operands. rewrite Hds, Hds', Hms, Hms'.
  cbn [bind Transformer.resolve kind SumDegreeEstimator.rules
       MaxDegreeEstimator.rules].
  repeat split.
  - unfold SumDegreeEstimator.product. f_equal. symmetry.
    now apply sum_Permutation.
  - unfold SumDegreeEstimator.expr. symmetry. now apply max_int_Permutation.
  - rewrite !product_maximum. f_equal. symmetry. apply maximum_Permutation.
    now apply Permutation_app_tail.
  - unfold MaxDegreeEstimator.expr. symmetry. now apply max_Permutation.
Qed.

Lemma operand_order_irrelevant_witness :
  SumDegreeEstimator.visit int_of_literal 1
    (Product [FormArgument (Some 2%N); SpatialCoordinate]) =
    SumDegreeEstimator.visit int_of_literal 1
      (Product [SpatialCoordinate; FormArgument (Some 2%N)]) /\
  SumDegreeEstimator.visit int_of_literal 1
    (Operator [FormArgument (Some 2%N); SpatialCoordinate]) =
    SumDegreeEstimator.visit int_of_literal 1
      (Operator [SpatialCoordinate; FormArgument (Some 2%N)]) /\
  MaxDegreeEstimator.visit 1
    (Product [FormArgument (Some 2%N); SpatialCoordinate]) =
    MaxDegreeEstimator.visit 1
      (Product [SpatialCoordinate; FormArgument (Some 2%N)]) /\
  MaxDegreeEstimator.visit 1
    (Operator [FormArgument (Some 2%N); SpatialCoordinate]) =
    MaxDegreeEstimator.visit 1
      (Operator [SpatialCoordinate; FormArgument (Some 2%N)]).
Proof.
  apply (operand_order_irrelevant int_of_literal 1
           [SpatialCoordinate; FormArgument (Some 2%N)]
           [FormArgument (Some 2%N); SpatialCoordinate]
           [1; 2] [Some 0; Some 2]); [constructor | reflexivity | reflexivity].
Defined.

(** ** Forms as collections of integrals *)

Lemma estimate_total_form (py_int : Expr -> Exc Z) (dflt : Z)
  (l : list Integral) (r : Z) :
  estimate_total_polynomial_degree py_int (OfForm {| integrals := l |}) dflt = Ok r <->
  exists ds,
    map_exc (SumDegreeEstimator.visit py_int dflt) (map integrand l) = Ok ds /\
    Py.max_int ds = Ok r.
Proof.
  rewrite estimate_total_roots. cbn [roots integrals]. split.
  - destruct (ufl_assert _); simpl; [|discriminate].
    destruct (map_exc _ _) as [ds|]; simpl; [|discriminate]. eauto.
  - intros (ds & Hds & Hr). rewrite Hds.
    destruct l as [|i l]; [simpl in Hds; injection Hds as <-; discriminate|].
    exact Hr.
Qed.

Lemma estimate_max_form (dflt : Z) (l : list Integral) (r : option Z) :
  estimate_max_polynomial_degree (OfForm {| integrals := l |}) dflt = Ok r <->
  exists ms,
    map_exc (MaxDegreeEstimator.visit dflt) (map integrand l) = Ok ms /\
    Py.max ms = Ok r.
Proof.
  rewrite estimate_max_roots. cbn [roots integrals]. split.
  - destruct (ufl_assert _); simpl; [|discriminate].
    destruct (map_exc _ _) as [ms|]; simpl; [|discriminate]. eauto.
  - intros (ms & Hms & Hr). rewrite Hms.
    destruct l as [|i l]; [simpl in Hms; injection Hms as <-; discriminate|].
    exact Hr.
Qed.

Lemma map_exc_app {A B : Type} (f : A -> Exc B) (l1 l2 : list A)
  (r1 r2 : list B) :
  map_exc f l1 = Ok r1 -> map_exc f l2 = Ok r2 ->
  map_exc f (l1 ++ l2) = Ok (r1 ++ r2).
Proof.
  revert r1. induction l1 as [|x l1 IH]; intros r1; simpl.
  - now intros [= <-].
  - destruct (f x) as [r|]; simpl; [|discriminate].
    destruct (map_exc f l1) as [rs|]; simpl; [|discriminate].
    intros [= <-] H2. now rewrite (IH rs eq_refl H2).
Qed.

Lemma fold_max_acc (l : list Z) (a b : Z) :
  fold_left Z.max l (Z.max a b) = Z.max a (fold_left Z.max l b).
Proof.
  revert b. induction l as [|y l IH]; intros b; simpl; [reflexivity|].
  now rewrite <- IH, Z.max_assoc.
Qed.

Lemma max_int_app (l1 l2 : list Z) (r1 r2 : Z) :
  Py.max_int l1 = Ok r1 -> Py.max_int l2 = Ok r2 ->
  Py.max_int (l1 ++ l2) = Ok (Z.max r1 r2).
Proof.
  destruct l1 as [|x1 l1]; [discriminate|].
  destruct l2 as [|x2 l2]; [discriminate|].
  simpl. intros [= <-] [= <-]. f_equal.
  rewrite fold_left_app. simpl. apply fold_max_acc.
Qed.

Lemma max_app (l1 l2 : list (option Z)) (r1 r2 : option Z) :
  Py.max l1 = Ok r1 -> Py.max l2 = Ok r2 ->
  Py.max (l1 ++ l2) = Ok (Py.max2 r1 r2).
Proof.
  destruct l1 as [|x1 l1]; [discriminate|].
  destruct l2 as [|x2 l2]; [discriminate|].
  rewrite !max_maximum by discriminate. intros [= <-] [= <-].
  now rewrite maximum_app.
Qed.

(** X10: the estimate of a form made of the integrals of two forms is
    the greater of the estimates of the two forms, for both driving
    functions. *)
Theorem form_concatenation (py_int : Expr -> Exc Z) (dflt : Z)
  (l1 l2 : list Integral) (r1 r2 : Z) (m1 m2 : option Z) :
  estimate_total_polynomial_degree py_int (OfForm {| integrals := l1 |}) dflt = Ok r1 ->
  estimate_total_polynomial_degree py_int (OfForm {| integrals := l2 |}) dflt = Ok r2 ->
  estimate_max_polynomial_degree (OfForm {| integrals := l1 |}) dflt = Ok m1 ->
  estimate_max_polynomial_degree (OfForm {| integrals := l2 |}) dflt = Ok m2 ->
  estimate_total_polynomial_degree py_int
    (OfForm {| integrals := l1 ++ l2 |}) dflt = Ok (Z.max r1 r2) /\
  estimate_max_polynomial_degree
    (OfForm {| integrals := l1 ++ l2 |}) dflt = Ok (Py.max2 m1 m2).
Proof.
  intros (ds1 & Hd1 & Hr1)%estimate_total_form (ds2 & Hd2 & Hr2)%estimate_total_form
         (ms1 & Hm1 & Hs1)%estimate_max_form (ms2 & Hm2 & Hs2)%estimate_max_form.
  split.
  - apply estimate_total_form. exists (ds1 ++ ds2). rewrite map_app. split.
    + now apply map_exc_app.
    + now apply max_int_app.
  - apply estimate_max_form. exists (ms1 ++ ms2). rewrite map_app. split.
    + now apply map_exc_app.
    + now apply max_app.
Qed.

Lemma form_concatenation_witness :
  estimate_total_polynomial_degree int_of_literal
    (OfForm {| integrals :=
                 [ {| integrand := Product [FormArgument (Some 2%N); SpatialCoordinate] |} ]
                 ++ [ {| integrand := FormArgument (Some 5%N) |} ] |}) 1
  = Ok (Z.max 3 5) /\
  estimate_max_polynomial_degree
    (OfForm {| integrals :=
                 [ {| integrand := Product [FormArgument (Some 2%N); SpatialCoordinate] |} ]
                 ++ [ {| integrand := FormArgument (Some 5%N) |} ] |}) 1
  = Ok (Py.max2 (Some 2) (Some 5)).
Proof.
  apply (form_concatenation int_of_literal 1
           [ {| integrand := Product [FormArgument (Some 2%N); SpatialCoordinate] |} ]
           [ {| integrand := FormArgument (Some 5%N) |} ]
           3 5 (Some 2) (Some 5)); reflexivity.
Defined.

(** X11: the estimate of a form does not depend on the order of its
    integrals, for both driving functions. *)
Theorem integral_order_irrelevant (py_int : Expr -> Exc Z) (dflt : Z)
  (l l' : list Integral) (r : Z) (m : option Z) :
  Permutation l l' ->
  estimate_total_polynomial_degree py_int (OfForm {| integrals := l |}) dflt = Ok r ->
  estimate_max_polynomial_degree (OfForm {| integrals := l |}) dflt = Ok m ->
  estimate_total_polynomial_degree py_int (OfForm {| integrals := l' |}) dflt = Ok r /\
  estimate_max_polynomial_degree (OfForm {| integrals := l' |}) dflt = Ok m.
Proof.
  intros Hp (ds & Hd & Hr)%estimate_total_form (ms & Hm & Hs)%estimate_max_form.
  pose proof (Permutation_map integrand Hp) as Hpm.
  destruct (map_exc_Permutation _ _ _ Hpm ds Hd) as (ds' & Hd' & Pd).
  destruct (map_exc_Permutation _ _ _ Hpm ms Hm) as (ms' & Hm' & Pm).
  split.
  - apply estimate_total_form. exists ds'. split; [exact Hd'|].
    now rewrite <- (max_int_Permutation _ _ Pd).
  - apply estimate_max_form. exists ms'. split; [exact Hm'|].
    now rewrite <- (max_Permutation _ _ Pm).
Qed.

Lemma integral_order_irrelevant_witness :
  estimate_total_polynomial_degree int_of_literal
    (OfForm {| integrals := [ {| integrand := FormArgument (Some 5%N) |};
                              {| integrand := SpatialCoordinate |} ] |}) 1 = Ok 5 /\
  estimate_max_polynomial_degree
    (OfForm {| integrals := [ {| integrand := FormArgument (Some 5%N) |};
                              {| integrand := SpatialCoordinate |} ] |}) 1 = Ok (Some 5).
Proof.
  apply (integral_order_irrelevant int_of_literal 1
           [ {| integrand := SpatialCoordinate |};
             {| integrand := FormArgument (Some 5%N) |} ]
           [ {| integrand := FormArgument (Some 5%N) |};
             {| integrand := SpatialCoordinate |} ]
           5 (Some 5)); [constructor | reflexivity | reflexivity].
Defined.

(** ** Folded math functions under the estimators *)

Lemma literal_degree (py_int : Expr -> Exc Z) (dflt : Z) (n : Expr) :
  is_literal n = true ->
  SumDegreeEstimator.visit py_int dflt n = Ok 0 /\
  MaxDegreeEstimator.visit dflt n = Ok (Some 0).
Proof. destruct n; try discriminate; intros _; split; reflexivity. Qed.

(** X12: whatever a math-function constructor returns, folded or
    symbolic, its estimated total degree is 0 when the operand's degree
    is 0 and the operand's degree plus 2 otherwise, and its max estimate
    is the operand's. *)
Theorem constructor_degree (as_ufl_value : PyNum -> Expr)
  (libm : MathFn -> spec_float -> spec_float) (py_int : Expr -> Exc Z)
  (dflt : Z) (fn : MathFn) (f : PyObj) (n : Expr) (d : Z) (m : option Z) :
  (forall v, is_literal (as_ufl_value v) = true) ->
  Operators.constructor as_ufl_value libm fn f = Ok n ->
  SumDegreeEstimator.visit py_int dflt (Operators.as_ufl as_ufl_value f) = Ok d ->
  MaxDegreeEstimator.visit dflt (Operators.as_ufl as_ufl_value f) = Ok m ->
  SumDegreeEstimator.visit py_int dflt n = Ok (if Z.eqb d 0 then 0 else d + 2) /\
  MaxDegreeEstimator.visit dflt n = Ok m.
Proof.
  intros Hlit.
  assert (Hc : Operators.constructor as_ufl_value libm fn f =
               Operators._mathfunction as_ufl_value f (MathFunction fn)
                 (Operators.math_fun libm fn)).
  { destruct fn; reflexivity. }
  rewrite Hc. unfold Operators._mathfunction.
  assert (Hfold : forall c : Exc PyNum,
            (r <- c ;; Ok (as_ufl_value r)) = Ok n -> is_literal n = true).
  { intros [r|]; simpl; [|discriminate]. intros [= <-]. apply Hlit. }
  assert (Hsym : forall a : Expr,
            SumDegreeEstimator.visit py_int dflt a = Ok d ->
            MaxDegreeEstimator.visit dflt a = Ok m ->
            SumDegreeEstimator.visit py_int dflt (MathFunction fn a)
              = Ok (if Z.eqb d 0 then 0 else d + 2) /\
            MaxDegreeEstimator.visit dflt (MathFunction fn a) = Ok m).
  { intros a Hd Hm. unfold SumDegreeEstimator.visit, MaxDegreeEstimator.visit in *.
    rewrite (visit_unary _ (MathFunction fn a) a d eq_refl Hd).
    rewrite (visit_unary _ (MathFunction fn a) a m eq_refl Hm).
    split; [|reflexivity]. simpl.
    destruct (Z.eqb_spec d 0) as [->|_]; reflexivity. }
  destruct (Operators.as_ufl as_ufl_value f) as
    [ | v | | | dg | ops | a b | ops | a b | a b | fn' a | a b ] eqn:Ef.
  2, 3: intros Hn%Hfold; cbn;
        intros [= <-] [= <-]; exact (literal_degree py_int dflt n Hn).
  all: intros [= <-]; apply Hsym.
Qed.

Lemma constructor_degree_witness :
  SumDegreeEstimator.visit int_of_literal 1
    (ScalarValue (PyFloat (S754_finite false 4503599627370496 (-51))))
    = Ok (if Z.eqb 0 0 then 0 else 0 + 2) /\
  MaxDegreeEstimator.visit 1
    (ScalarValue (PyFloat (S754_finite false 4503599627370496 (-51))))
    = Ok (Some 0).
Proof.
  apply (constructor_degree ScalarValue no_libm int_of_literal 1 Sqrt
           (OfNum (PyInt 4))
           (ScalarValue (PyFloat (S754_finite false 4503599627370496 (-51))))
           0 (Some 0));
    [intros v; reflexivity | reflexivity | reflexivity | reflexivity].
Defined.

(** ** Nested products *)

Lemma sum_app (l1 l2 : list Z) : Py.sum (l1 ++ l2) = Py.sum l1 + Py.sum l2.
Proof.
  induction l1 as [|x l1 IH]; [unfold Py.sum at 2; simpl; lia|].
  change ((x :: l1) ++ l2) with (x :: (l1 ++ l2)). rewrite !sum_cons, IH. lia.
Qed.

(** X13: under the sum rule set a product nested among the operands of a
    product counts as its own operands do: the nested and the flattened
    product get the same degree. *)
Theorem nested_product_degree (py_int : Expr -> Exc Z) (dflt : Z)
  (l1 l2 l3 : list Expr) (d1 d2 d3 : list Z) :
  map_exc (SumDegreeEstimator.visit py_int dflt) l1 = Ok d1 ->
  map_exc (SumDegreeEstimator.visit py_int dflt) l2 = Ok d2 ->
  map_exc (SumDegreeEstimator.visit py_int dflt) l3 = Ok d3 ->
  SumDegreeEstimator.visit py_int dflt (Product (l1 ++ Product l2 :: l3)) =
  SumDegreeEstimator.visit py_int dflt (Product (l1 ++ l2 ++ l3)).
Proof.
  intros H1 H2 H3. unfold SumDegreeEstimator.visit in *.
  assert (Hin : Transformer.visit (SumDegreeEstimator.rules py_int dflt)
                  (Product l2) = Ok (Py.sum d2)).
  { rewrite visit_eq. simpl operands. now rewrite H2. }
  rewrite !(visit_eq _ (Product _)). simpl operands.
  rewrite (map_exc_app _ l1 (Product l2 :: l3) d1 (Py.sum d2 :: d3) H1).
  2: { cbn [map_exc]. now rewrite Hin, H3. }
  rewrite (map_exc_app _ l1 (l2 ++ l3) d1 (d2 ++ d3) H1).
  2: { now apply map_exc_app. }
  simpl. unfold SumDegreeEstimator.product. f_equal.
  rewrite !sum_app, sum_cons. lia.
Qed.

Lemma nested_product_degree_witness :
  SumDegreeEstimator.visit int_of_literal 1
    (Product ([SpatialCoordinate]
              ++ Product [FormArgument (Some 2%N); FormArgument None]
                 :: [FormArgument (Some 4%N)])) =
  SumDegreeEstimator.visit int_of_literal 1
    (Product ([SpatialCoordinate]
              ++ [FormArgument (Some 2%N); FormArgument None]
              ++ [FormArgument (Some 4%N)])).
Proof.
  apply (nested_product_degree int_of_literal 1
           [SpatialCoordinate] [FormArgument (Some 2%N); FormArgument None]
           [FormArgument (Some 4%N)] [1] [2; 1] [4]); reflexivity.
Defined.

(** ** The default degree under the max rule set *)

Lemma max2_mono (a a' b b' : option Z) :
  Py.leb a a' = true -> Py.leb b b' = true ->
  Py.leb (Py.max2 a b) (Py.max2 a' b') = true.
Proof.
  destruct a, a', b, b'; simpl; try easy; rewrite ?Z.leb_le; lia.
Qed.

Lemma maximum_mono (l l' : list (option Z)) :
  Forall2 (fun a b => Py.leb a b = true) l l' ->
  Py.leb (maximum l) (maximum l') = true.
Proof.
  induction 1 as [|a b l l' Hab _ IH]; simpl; [reflexivity|].
  now apply max2_mono.
Qed.

Lemma max_mono (l l' : list (option Z)) (m m' : option Z) :
  Forall2 (fun a b => Py.leb a b = true) l l' ->
  Py.max l = Ok m -> Py.max l' = Ok m' -> Py.leb m m' = true.
Proof.
  intros H. pose proof (maximum_mono l l' H) as Hm.
  destruct H as [|a b l l' Hab H]; [discriminate|].
  rewrite !max_maximum by discriminate. now intros [= <-] [= <-].
Qed.

Section MaxMonotone.
Variables d1 d2 : Z.
Hypothesis d1_le_d2 : d1 <= d2.

Lemma max_visit_mono (e : Expr) :
  forall m1 m2,
    MaxDegreeEstimator.visit d1 e = Ok m1 ->
    MaxDegreeEstimator.visit d2 e = Ok m2 ->
    Py.leb m1 m2 = true.
Proof.
  unfold MaxDegreeEstimator.visit.
  assert (Hbin : forall (v a b : Expr),
    operands v = [a; b] ->
    Transformer.resolve (MaxDegreeEstimator.rules d1) v = Ok MaxDegreeEstimator.expr ->
    Transformer.resolve (MaxDegreeEstimator.rules d2) v = Ok MaxDegreeEstimator.expr ->
    (forall m1 m2,
       Transformer.visit (MaxDegreeEstimator.rules d1) a = Ok m1 ->
       Transformer.visit (MaxDegreeEstimator.rules d2) a = Ok m2 ->
       Py.leb m1 m2 = true) ->
    (forall m1 m2,
       Transformer.visit (MaxDegreeEstimator.rules d1) b = Ok m1 ->
       Transformer.visit (MaxDegreeEstimator.rules d2) b = Ok m2 ->
       Py.leb m1 m2 = true) ->
    forall m1 m2,
      Transformer.visit (MaxDegreeEstimator.rules d1) v = Ok m1 ->
      Transformer.visit (MaxDegreeEstimator.rules d2) v = Ok m2 ->
      Py.leb m1 m2 = true).
  { intros v a b Hops R1 R2 IHa IHb m1 m2.
    rewrite (visit_eq (MaxDegreeEstimator.rules d1)),
            (visit_eq (MaxDegreeEstimator.rules d2)), Hops, R1, R2.
    set (V1 := Transformer.visit (MaxDegreeEstimator.rules d1)) in *.
    set (V2 := Transformer.visit (MaxDegreeEstimator.rules d2)) in *.
    simpl map_exc.
    destruct (V1 a) as [a1|] eqn:Ea1; simpl; [|discriminate].
    destruct (V1 b) as [b1|] eqn:Eb1; simpl; [|discriminate].
    destruct (V2 a) as [a2|] eqn:Ea2; simpl; [|discriminate].
    destruct (V2 b) as [b2|] eqn:Eb2; simpl; [|discriminate].
    intros [= <-] [= <-]. apply max2_mono; auto. }
  induction e as [ | v | | | d | ops IH | f i IHf IHi | ops IH
                 | a b IHa IHb | a b IHa IHb | fn a IHa | nu x IHnu IHx ]
    using Expr_ind;
    try (eapply Hbin;
         [reflexivity | reflexivity | reflexivity | assumption | assumption]);
    intros m1 m2;
    rewrite (visit_eq (MaxDegreeEstimator.rules d1)),
            (visit_eq (MaxDegreeEstimator.rules d2));
    simpl operands;
    set (V1 := Transformer.visit (MaxDegreeEstimator.rules d1)) in *;
    set (V2 := Transformer.visit (MaxDegreeEstimator.rules d2)) in *.
  1-5: simpl; intros [= <-] [= <-]; apply leb_refl.
  - destruct (map_exc V1 ops) as [rs1|] eqn:E1; simpl; [|discriminate].
    destruct (map_exc V2 ops) as [rs2|] eqn:E2; simpl; [|discriminate].
    apply max_mono.
    refine (map_exc_Forall2 _ _ (fun _ => True) _ _ _ _ _ _ E1 E2).
    + eapply Forall_impl; [exact IH|]. simpl. auto.
    + apply Forall_forall. auto.
  - destruct (map_exc V1 ops) as [rs1|] eqn:E1; simpl; [|discriminate].
    destruct (map_exc V2 ops) as [rs2|] eqn:E2; simpl; [|discriminate].
    cbn [Transformer.resolve kind MaxDegreeEstimator.rules bind].
    rewrite !product_maximum. intros [= <-] [= <-]. apply maximum_mono.
    apply Forall2_app.
    + refine (map_exc_Forall2 _ _ (fun _ => True) _ _ _ _ _ _ E1 E2).
      * eapply Forall_impl; [exact IH|]. simpl. auto.
      * apply Forall_forall. auto.
    + repeat constructor. simpl. now apply Z.leb_le.
  - simpl map_exc.
    destruct (V1 a) as [a1|] eqn:Ea1; simpl; [|discriminate].
    destruct (V2 a) as [a2|] eqn:Ea2; simpl; [|discriminate].
    intros [= <-] [= <-]. now apply IHa.
Qed.

End MaxMonotone.

(** X14: the max estimate grows with the default degree: for default
    degrees [d1 <= d2] the estimate under [d1] is at most the estimate
    under [d2] in Python 2's ordering, in which the absent value is below
    every integer. *)
Theorem max_default_degree_monotone (d1 d2 : Z) (target : Target)
  (m1 m2 : option Z) :
  d1 <= d2 ->
  estimate_max_polynomial_degree target d1 = Ok m1 ->
  estimate_max_polynomial_degree target d2 = Ok m2 ->
  Py.leb m1 m2 = true.
Proof.
  intros Hd. rewrite !estimate_max_roots.
  destruct (match target with OfForm f => _ | _ => _ end); simpl; [|discriminate].
  destruct (map_exc (MaxDegreeEstimator.visit d1) (roots target))
    as [rs1|] eqn:E1; simpl; [|discriminate].
  destruct (map_exc (MaxDegreeEstimator.visit d2) (roots target))
    as [rs2|] eqn:E2; simpl; [|discriminate].
  apply max_mono.
  refine (map_exc_Forall2 _ _ (fun _ => True) _ _ _ _ _ _ E1 E2).
  - apply Forall_forall. intros x _ _ s1 s2. now apply max_visit_mono.
  - apply Forall_forall. auto.
Qed.

Lemma max_default_degree_monotone_witness :
  estimate_max_polynomial_degree
    (OfExpr (Product [FormArgument None; FormArgument (Some 2%N)])) 1 = Ok (Some 2) /\
  estimate_max_polynomial_degree
    (OfExpr (Product [FormArgument None; FormArgument (Some 2%N)])) 4 = Ok (Some 4) /\
  Py.leb (Some 2) (Some 4) = true.
Proof.
  split; [reflexivity|]. split; [reflexivity|].
  apply (max_default_degree_monotone 1 4
           (OfExpr (Product [FormArgument None; FormArgument (Some 2%N)]))
           (Some 2) (Some 4)); [lia | reflexivity | reflexivity].
Defined.
